(** * iexfinance.stock: a shallow embedding of [StockReader] and
    [HistoricalReader]

    The Python module [iexfinance/stock.py] is embedded method by method.
    Python dictionaries are finite maps ([gmap string _]), exceptions are an
    error type, and methods run in a small monad that threads the instance
    ([self]) and the warnings issued so far, and reads the external
    collaborators (HTTP transport, pandas). *)

From stdpp Require Import gmap strings list fin_maps.
From Stdlib Require Import Ascii ZArith QArith Lia.

Set Warnings "-register-all".
Close Scope Q_scope.
Open Scope string_scope.

(** ** Python values *)

(** Parsed JSON and the other objects the module passes around.  Floating
    point payloads are never inspected by this module; they are carried as
    rationals.  [VPandas p] is a pandas object (a DataFrame or a Series)
    whose contents are described by [p]; only pandas itself looks inside. *)
Inductive value :=
| VNone
| VBool (b : bool)
| VInt (n : Z)
| VFloat (q : Q)
| VStr (s : string)
| VList (l : list value)
| VDict (d : gmap string value)
| VPandas (p : value).

(** A server response, and the consolidated data set:
    symbol -> endpoint -> JSON value. *)
Abbreviation response := (gmap string (gmap string value)).

(** ** Exceptions and results *)

Inductive exn :=
| IEXSymbolError (symbol : string)
| IEXEndpointError (endpoint : string)
| IEXQueryError
| ValueError (msg : string)
| TypeError (msg : string)
| KeyError (key : value)
| IndexError (msg : string)
| AttributeError (name : string)
| UnboundLocalError (name : string).

Inductive result (A : Type) :=
| Ok (a : A)
| Raise (e : exn).
Arguments Ok {A} a.
Arguments Raise {A} e.

(** ** The instance and the world around it *)

(** The attributes [StockReader.__init__] and [refresh] assign on [self]. *)
Module Self.
Record t := mk {
  symbols : list string;
  key : string;
  output_format : string;
  displayPercent : value;
  range : string;
  last : Z;
  endpoints : string;
  data_set : response
}.

(** The object as [__init__] receives it, before any attribute is set. *)
Definition blank : t := mk [] "" "" VNone "" 0 "" ∅.

Definition set_symbols (v : list string) (o : t) : t :=
  mk v (key o) (output_format o) (displayPercent o) (range o) (last o)
     (endpoints o) (data_set o).
Definition set_key (v : string) (o : t) : t :=
  mk (symbols o) v (output_format o) (displayPercent o) (range o) (last o)
     (endpoints o) (data_set o).
Definition set_output_format (v : string) (o : t) : t :=
  mk (symbols o) (key o) v (displayPercent o) (range o) (last o)
     (endpoints o) (data_set o).
Definition set_displayPercent (v : value) (o : t) : t :=
  mk (symbols o) (key o) (output_format o) v (range o) (last o)
     (endpoints o) (data_set o).
Definition set_range (v : string) (o : t) : t :=
  mk (symbols o) (key o) (output_format o) (displayPercent o) v (last o)
     (endpoints o) (data_set o).
Definition set_last (v : Z) (o : t) : t :=
  mk (symbols o) (key o) (output_format o) (displayPercent o) (range o) v
     (endpoints o) (data_set o).
Definition set_endpoints (v : string) (o : t) : t :=
  mk (symbols o) (key o) (output_format o) (displayPercent o) (range o)
     (last o) v (data_set o).
Definition set_data_set (v : response) (o : t) : t :=
  mk (symbols o) (key o) (output_format o) (displayPercent o) (range o)
     (last o) (endpoints o) v.
End Self.

(** What a method can change: the instance, and the list of warnings passed
    to [warnings.warn] so far (oldest first). *)
Record world := World {
  self : Self.t;
  warnings : list string
}.

(** What a method can only consult.  [GET] is the transport of the base
    class (one HTTP GET for a url and query parameters, parsed, or a query
    error); [pd_DataFrame] is the constructor [pd.DataFrame] and
    [pd_getitem] is subscription of a pandas object. *)
Record collaborators := Collaborators {
  GET : string -> gmap string value -> result response;
  pd_DataFrame : value -> result value;
  pd_getitem : value -> string -> result value
}.

(** ** The method monad *)

Definition M (A : Type) : Type := collaborators -> world -> result A * world.

Definition ret {A} (a : A) : M A := fun _ w => (Ok a, w).

Definition bind {A B} (m : M A) (k : A -> M B) : M B :=
  fun E w =>
    match m E w with
    | (Ok a, w') => k a E w'
    | (Raise e, w') => (Raise e, w')
    end.

Notation "'do' x <- m ; k" := (bind m (fun x => k))
  (at level 10, x name, m at level 100, k at level 200,
   format "'[v' 'do'  x  <-  m ; '/' k ']'").

Definition raise {A} (e : exn) : M A := fun _ w => (Raise e, w).

Definition lift {A} (r : result A) : M A := fun _ w => (r, w).

(** [self.attr] *)
Definition getattr {A} (attr : Self.t -> A) : M A :=
  fun _ w => (Ok (attr (self w)), w).

(** [self.attr = v], given the matching setter *)
Definition setattr (upd : Self.t -> Self.t) : M unit :=
  fun _ w => (Ok tt, World (upd (self w)) (warnings w)).

(** [warnings.warn(msg)] *)
Definition warn (msg : string) : M unit :=
  fun _ w => (Ok tt, World (self w) (warnings w ++ [msg])).

(** [try: m  except KeyError: handler] *)
Definition try_except_KeyError {A} (m : M A) (handler : M A) : M A :=
  fun E w =>
    match m E w with
    | (Raise (KeyError _), w') => handler E w'
    | r => r
    end.

(** [for x in l: s = body(s, x)], the loop-carried locals being [s] *)
Fixpoint for_in {A S} (l : list A) (body : S -> A -> M S) (s : S) : M S :=
  match l with
  | [] => ret s
  | x :: l' => do s' <- body s x; for_in l' body s'
  end.

(** ** Built-in operations *)

(** [d[k]] on a dictionary *)
Definition dict_getitem {V} (d : gmap string V) (k : string) : result V :=
  match d !! k with
  | Some v => Ok v
  | None => Raise (KeyError (VStr k))
  end.

(** [v[k]] for a string subscript [k], on any value *)
Definition getitem (v : value) (k : string) : M value :=
  fun E w =>
    match v with
    | VDict d => (dict_getitem d k, w)
    | VPandas p => (pd_getitem E p k, w)
    | VList _ => (Raise (TypeError "list indices must be integers"), w)
    | VStr _ => (Raise (TypeError "string indices must be integers"), w)
    | _ => (Raise (TypeError "object is not subscriptable"), w)
    end.

(** [l[0]] *)
Definition getitem0 {A} (l : list A) : result A :=
  match l with
  | x :: _ => Ok x
  | [] => Raise (IndexError "list index out of range")
  end.

(** [{k: f(k) for k in d.keys()}].  A [gmap] does not record insertion
    order; the keys are visited in the order of [map_to_list]. *)
Definition dict_comprehension {V} (d : gmap string V) (f : string -> M value)
  : M (gmap string value) :=
  for_in (map_to_list d).*1
         (fun acc k => do v <- f k; ret (<[k := v]> acc)) ∅.

(** [s.upper()] on ASCII text: the letters a-z are shifted to A-Z, every
    other byte is kept. *)
Definition upper_ascii (c : ascii) : ascii :=
  let n := nat_of_ascii c in
  if (97 <=? n)%nat && (n <=? 122)%nat then ascii_of_nat (n - 32) else c.

Fixpoint upper (s : string) : string :=
  match s with
  | EmptyString => EmptyString
  | String c s' => String (upper_ascii c) (upper s')
  end.

(** [x.upper()] on an arbitrary element: only strings have the method. *)
Definition value_upper (x : value) : result string :=
  match x with
  | VStr s => Ok (upper s)
  | _ => Raise (AttributeError "upper")
  end.

(** The characters of a string, as one-character strings (iteration over a
    [str]). *)
Fixpoint chars (s : string) : list string :=
  match s with
  | EmptyString => []
  | String c s' => String c EmptyString :: chars s'
  end.

(** [list(map(f, l))] for an [f] that may raise *)
Fixpoint map_result {A B} (f : A -> result B) (l : list A) : result (list B) :=
  match l with
  | [] => Ok []
  | x :: l' =>
      match f x with
      | Raise e => Raise e
      | Ok y =>
          match map_result f l' with
          | Raise e => Raise e
          | Ok ys => Ok (y :: ys)
          end
      end
  end.

(** [d.update(other)]: the entries of [other] are written over [d]. *)
Definition dict_update {V} (d other : gmap string V) : gmap string V :=
  other ∪ d.

(** [pd.DataFrame(v)] *)
Definition DataFrame (v : value) : M value :=
  fun E w => (pd_DataFrame E v, w).

(** An argument documented as "str or list". *)
Inductive str_or_list (A : Type) :=
| Str (s : string)
| List (l : list A).
Arguments Str {A} s.
Arguments List {A} l.

(** ** The decorator [output_format] *)

(** [output_format(override)(func)]: the wrapper [_format_wrapper] around a
    method body [func], already applied to the call's arguments.  The
    comparisons [is 'pandas'] and [is 'share'] are taken as string
    equality.  In the branch that warns, the wrapper falls off its end, so
    the call evaluates to [None]. *)
Definition output_format (override : option string) (func : M value)
  : M value :=
  do response <- func;
  do fmt <- getattr Self.output_format;
  if String.eqb fmt "pandas" then
    match override with
    | None =>
        do df <- DataFrame response;
        ret df
    | Some _ =>
        do _ <- warn ("Pandas output not supported for this " ++
                      "endpoint. Defaulting to JSON.");
        ret VNone
    end
  else
    do key <- getattr Self.key;
    if String.eqb key "share" then
      do symbols <- getattr Self.symbols;
      do symbol <- lift (getitem0 symbols);
      getitem response symbol
    else
      ret response.

(** ** class StockReader *)

Module StockReader.

Definition _RANGE_VALUES : list string :=
  ["1m"; "5y"; "2y"; "1y"; "ytd"; "6m"; "3m"; "1d"].

Definition _ENDPOINTS : list string :=
  ["chart"; "quote"; "book"; "open-close"; "previous";
   "company"; "stats"; "peers"; "relevant"; "news";
   "financials"; "earnings"; "dividends"; "splits"; "logo";
   "price"; "delayed-quote"; "effective-spread";
   "volume-by-venue"; "ohlc"].

Definition ALL_ENDPOINTS_STR_1 : string :=
  String.concat "," (take 10 _ENDPOINTS).
Definition ALL_ENDPOINTS_STR_2 : string :=
  String.concat "," (take 10 (drop 10 _ENDPOINTS)).

Definition _default_options (self : Self.t) : bool :=
  String.eqb (Self.range self) "1m" &&
  Z.eqb (Self.last self) 10 &&
  match Self.displayPercent self with
  | VBool false => true
  | _ => false
  end.

Definition url : string := "stock/market/batch".

Definition params (self : Self.t) : gmap string value :=
  let params : gmap string value :=
    <["types" := VStr (Self.endpoints self)]>
      (<["symbols" := VStr (String.concat "," (Self.symbols self))]> ∅) in
  if negb (_default_options self) then
    <["displayPercent" := Self.displayPercent self]>
      (<["last" := VInt (Self.last self)]>
         (<["range" := VStr (Self.range self)]> params))
  else params.

(** Modelled from the spec: [_IEXBase.fetch], inherited from the base
    class in [iexfinance/base.py], which is not among the sources.  It
    hands [self.url] and [self.params] to the transport, which performs
    one GET and returns the parsed JSON or fails with a query error. *)
Definition fetch : M response :=
  fun E w => (GET E url (params (self w)), w).

(** The body of the loop [for symbol in self.symbols] of [refresh]. *)
Definition refresh_symbol (data2 : response) (symbol : string) : M unit :=
  do data_set <- getattr Self.data_set;
  match data_set !! symbol with
  | None => raise (IEXSymbolError symbol)
  | Some entry =>
      do extra <- lift (dict_getitem data2 symbol);
      setattr (Self.set_data_set
                 (<[symbol := dict_update entry extra]> data_set))
  end.

Definition refresh : M unit :=
  do _ <- setattr (Self.set_endpoints ALL_ENDPOINTS_STR_1);
  do fetched <- fetch;
  do _ <- setattr (Self.set_data_set fetched);
  do _ <- setattr (Self.set_endpoints ALL_ENDPOINTS_STR_2);
  do data2 <- fetch;
  do symbols <- getattr Self.symbols;
  for_in symbols (fun _ symbol => refresh_symbol data2 symbol) tt.

(** [iter(symbols)] and [len(symbols)] for the constructor's argument *)
Definition elements (symbols : str_or_list value) : list value :=
  match symbols with
  | Str s => VStr <$> chars s
  | List l => l
  end.

Definition len (symbols : str_or_list value) : nat :=
  match symbols with
  | Str s => String.length s
  | List l => length l
  end.

(** The call to the base class initialiser passes no keyword arguments
    here and is taken to set nothing this module reads. *)
Definition __init__ (symbols : str_or_list value) (displayPercent : value)
    (_range : string) (last : Z) (output_format : string) : M unit :=
  do upper_symbols <- lift (map_result value_upper (elements symbols));
  do _ <- setattr (Self.set_symbols upper_symbols);
  do _ <- (if Nat.eqb (len symbols) 1
           then setattr (Self.set_key "share")
           else setattr (Self.set_key "batch"));
  do _ <- setattr (Self.set_output_format output_format);
  do _ <- setattr (Self.set_displayPercent displayPercent);
  do _ <- setattr (Self.set_range _range);
  do _ <- setattr (Self.set_last last);
  do displayPercent <- getattr Self.displayPercent;
  do range <- getattr Self.range;
  do last <- getattr Self.last;
  do _ <- match displayPercent with
          | VBool _ =>
              if negb (bool_decide (range ∈ _RANGE_VALUES)) then
                raise (ValueError "Invalid chart range.")
              else if Z.ltb 50 last || Z.ltb last 1 then
                raise (ValueError ("Invalid news last range. " ++
                                   "Enter a value between 1 and 50."))
              else ret tt
          | _ => raise (TypeError "displayPercent must be a boolean value")
          end;
  refresh.

(** The method bodies, before decoration. *)
Module func.

Definition get_all : M value :=
  do data_set <- getattr Self.data_set;
  ret (VDict (VDict <$> data_set)).

(** The body of the inner loop [for endpoint in endpoints] of
    [get_select_endpoints]; [ds] is [None] while the local is unbound. *)
Definition select_endpoint (ds : option (gmap string value))
    (temp : gmap string value) (endpoint : string)
  : M (gmap string value) :=
  do query <- try_except_KeyError
                (match ds with
                 | None => raise (UnboundLocalError "ds")
                 | Some entry => lift (dict_getitem entry endpoint)
                 end)
                (raise (IEXEndpointError endpoint));
  ret (<[endpoint := query]> temp).

(** The body of the outer loop [for symbol in self.symbols].  The
    locals carried from one round to the next are [result] and [ds]:
    the handler of the first [try] builds an [IEXSymbolError] and drops
    it, so [ds] keeps whatever binding it had. *)
Definition select_symbol (endpoints : list string)
    (locals : gmap string value * option (gmap string value))
    (symbol : string)
  : M (gmap string value * option (gmap string value)) :=
  let '(result, ds) := locals in
  do ds <- try_except_KeyError
             (do data_set <- getattr Self.data_set;
              do entry <- lift (dict_getitem data_set symbol);
              ret (Some entry))
             (ret ds);
  do temp <- for_in endpoints (select_endpoint ds) ∅;
  ret (<[symbol := VDict temp]> result, ds).

Definition get_select_endpoints (endpoints : str_or_list string)
  : M value :=
  do endpoints <- match endpoints with
                  | Str s => ret [s]
                  | List [] =>
                      raise (ValueError
                               "Please provide a valid list of endpoints")
                  | List l => ret l
                  end;
  do symbols <- getattr Self.symbols;
  do locals <- for_in symbols (select_symbol endpoints) (∅, None);
  ret (VDict locals.1).

(** [{symbol: self.data_set[symbol][name]
      for symbol in self.data_set.keys()}],
    the body shared by the endpoint methods *)
Definition endpoint (name : string) : M value :=
  do data_set <- getattr Self.data_set;
  do projected <- dict_comprehension data_set
    (fun symbol =>
       do data_set <- getattr Self.data_set;
       do entry <- lift (dict_getitem data_set symbol);
       lift (dict_getitem entry name));
  ret (VDict projected).

(** [{symbol: getter()[symbol][name] if self.key == 'batch'
              else getter()[name]
      for symbol in self.data_set.keys()}],
    the body shared by the field methods; [getter] is the decorated
    [get_quote] or [get_key_stats]. *)
Definition field (getter : M value) (name : string) : M value :=
  do data_set <- getattr Self.data_set;
  do projected <- dict_comprehension data_set
    (fun symbol =>
       do key <- getattr Self.key;
       if String.eqb key "batch" then
         do by_symbol <- getter;
         do entry <- getitem by_symbol symbol;
         getitem entry name
       else
         do entry <- getter;
         getitem entry name);
  ret (VDict projected).

End func.

Definition get_all := output_format (Some "json") func.get_all.
Definition get_select_endpoints (endpoints : str_or_list string) :=
  output_format (Some "json") (func.get_select_endpoints endpoints).

(** endpoint methods *)
Definition get_quote := output_format None (func.endpoint "quote").
Definition get_book := output_format None (func.endpoint "book").
Definition get_chart := output_format (Some "json") (func.endpoint "chart").
Definition get_previous := output_format None (func.endpoint "previous").
Definition get_company := output_format None (func.endpoint "company").
Definition get_key_stats := output_format None (func.endpoint "stats").
Definition get_peers := output_format None (func.endpoint "peers").
Definition get_relevant := output_format None (func.endpoint "relevant").
Definition get_news := output_format None (func.endpoint "news").
Definition get_financials :=
  output_format None (func.endpoint "financials").
Definition get_earnings := output_format None (func.endpoint "earnings").
Definition get_dividends := output_format None (func.endpoint "dividends").
Definition get_splits := output_format None (func.endpoint "splits").
Definition get_logo := output_format None (func.endpoint "logo").
Definition get_price := output_format (Some "json") (func.endpoint "price").
Definition get_delayed_quote :=
  output_format None (func.endpoint "delayed-quote").
Definition get_effective_spread :=
  output_format None (func.endpoint "effective-spread").
Definition get_volume_by_venue :=
  output_format None (func.endpoint "volume-by-venue").
Definition get_ohlc := output_format None (func.endpoint "ohlc").
Definition get_open_close := get_ohlc.
Definition get_time_series := get_chart.

(** field methods *)
Definition get_company_name :=
  output_format (Some "json") (func.field get_quote "companyName").
Definition get_primary_exchange :=
  output_format (Some "json") (func.field get_quote "primaryExchange").
Definition get_sector :=
  output_format (Some "json") (func.field get_quote "sector").
Definition get_open :=
  output_format (Some "json") (func.field get_quote "open").
Definition get_close :=
  output_format (Some "json") (func.field get_quote "close").
Definition get_years_high :=
  output_format (Some "json") (func.field get_quote "week52High").
Definition get_years_low :=
  output_format (Some "json") (func.field get_quote "week52Low").
Definition get_ytd_change :=
  output_format (Some "json") (func.field get_quote "ytdChange").
Definition get_volume :=
  output_format (Some "json") (func.field get_quote "latestVolume").
Definition get_market_cap :=
  output_format (Some "json") (func.field get_quote "marketCap").
Definition get_beta :=
  output_format (Some "json") (func.field get_key_stats "beta").
Definition get_short_interest :=
  output_format (Some "json") (func.field get_key_stats "shortInterest").
Definition get_short_ratio :=
  output_format (Some "json") (func.field get_key_stats "shortRatio").
Definition get_latest_eps :=
  output_format (Some "json") (func.field get_key_stats "latestEPS").
Definition get_shares_outstanding :=
  output_format (Some "json")
                (func.field get_key_stats "sharesOutstanding").
Definition get_float :=
  output_format (Some "json") (func.field get_key_stats "float").
Definition get_eps_consensus :=
  output_format (Some "json") (func.field get_key_stats "consensusEPS").

End StockReader.

(** ** Computations that only return or raise *)

(** [r] then [k], for computations that only return or raise *)
Definition result_bind {A B} (r : result A) (k : A -> result B) : result B :=
  match r with
  | Ok a => k a
  | Raise e => Raise e
  end.

Notation "'letr' x := r 'in' k" := (result_bind r (fun x => k))
  (at level 10, x name, r at level 100, k at level 200,
   format "'[v' 'letr'  x  :=  r  'in' '/' k ']'").

(** [for x in l: s = body(s, x)] for a body that only returns or raises *)
Fixpoint fold_result {A S} (l : list A) (body : S -> A -> result S) (s : S)
  : result S :=
  match l with
  | [] => Ok s
  | x :: l' => letr s' := body s x in fold_result l' body s'
  end.

(** The string a dictionary with string keys would be searched for, given
    any key: a string stands for itself, another hashable object matches no
    key, and lists, dictionaries and pandas objects cannot be hashed. *)
Definition hash_key (k : value) : result (option string) :=
  match k with
  | VStr s => Ok (Some s)
  | VList _ | VDict _ | VPandas _ => Raise (TypeError "unhashable type")
  | _ => Ok None
  end.

(** [d[k]] for a key of any type *)
Definition dict_getitem_value {V} (d : gmap string V) (k : value) : result V :=
  letr key := hash_key k in
  match key ≫= (d !!.) with
  | Some v => Ok v
  | None => Raise (KeyError k)
  end.

(** ** class HistoricalReader *)

Module HistoricalReader.

(** The part of a [datetime] this module reads. *)
Record datetime := Datetime {
  year : Z;
  month : Z;
  day : Z
}.

Record t := mk {
  type : string;
  symlist : list value;
  symbols : value;
  start : datetime;
  end_ : datetime;
  output_format : string
}.

(** The arguments are taken as given; as for [StockReader], the base
    class initialiser is taken to set nothing this module reads. *)
Definition __init__ (symbols : value) (start end_ : datetime)
    (output_format : string) : result t :=
  match symbols with
  | VList l =>
      if (1 <? length l)%nat then
        Ok (mk "Batch" l symbols start end_ output_format)
      else
        Raise (ValueError "Please input a symbol or list of symbols")
  | VStr _ =>
      Ok (mk "Share" [symbols] symbols start end_ output_format)
  | _ => Raise (ValueError "Please input a symbol or list of symbols")
  end.

Definition url : string := "stock/market/batch".

Definition key (self : t) : string := type self.

(** [now] is the value of [datetime.datetime.now()] at the call. *)
Definition chart_range (now : datetime) (self : t) : result string :=
  let delta := (year now - year (start self))%Z in
  if (2 <=? delta)%Z && (delta <=? 5)%Z then Ok "5y"
  else if (1 <=? delta)%Z && (delta <=? 2)%Z then Ok "2y"
  else if (0 <=? delta)%Z && (delta <? 1)%Z then Ok "1y"
  else Raise (ValueError
                "Invalid date specified. Must be within past 5 years.").

(** What the historical reader asks of [datetime] and of pandas beyond the
    DataFrame constructor: formatting a date, [df.set_index(k)] (the frame
    once re-indexed), [df[columns]], [df.loc[a:b]], [df.to_dict(orient)],
    iteration over a pandas object, and the truth of [key == obj] for a
    pandas object [obj]. *)
Record library := Library {
  strftime : datetime -> string -> string;
  set_index : value -> string -> result value;
  columns : value -> list string -> result value;
  loc : value -> string -> string -> result value;
  to_dict : value -> string -> result value;
  pd_iter : value -> result (list value);
  pd_eq : string -> value -> result bool
}.

(** [iter(v)]; the keys of a dictionary come in the order of
    [map_to_list]. *)
Definition iterate (L : library) (v : value) : result (list value) :=
  match v with
  | VList l => Ok l
  | VStr s => Ok (VStr <$> chars s)
  | VDict d => Ok (VStr <$> (map_to_list d).*1)
  | VPandas _ => pd_iter L v
  | _ => Raise (TypeError "can only join an iterable")
  end.

(** [sep.join(v)]: every item must be a string. *)
Definition join (L : library) (sep : string) (v : value) : result string :=
  letr items := iterate L v in
  letr names := map_result
                  (fun item =>
                     match item with
                     | VStr s => Ok s
                     | _ => Raise (TypeError "expected str instance")
                     end) items in
  Ok (String.concat sep names).

Definition params (L : library) (now : datetime) (self : t)
  : result (gmap string value) :=
  letr syms := (if String.eqb (type self) "Batch"
                then letr joined := join L "," (symbols self) in
                     Ok (VStr joined)
                else Ok (symbols self)) in
  letr range := chart_range now self in
  Ok (<["range" := VStr range]>
        (<["types" := VStr "chart"]>
           (<["symbols" := syms]> ∅))).

(** [out.pop(symbol)]: the key found, its entry, and [out] without it *)
Definition pop (out : response) (symbol : value)
  : result (string * gmap string value * response) :=
  letr key := hash_key symbol in
  match key with
  | Some s =>
      match out !! s with
      | Some entry => Ok (s, entry, delete s out)
      | None => Raise (KeyError symbol)
      end
  | None => Raise (KeyError symbol)
  end.

(** The frame of one symbol: the chart as a DataFrame, indexed by date,
    cut down to the five value columns and to the rows from start to
    end. *)
Definition frame (E : collaborators) (L : library) (self : t) (d : value)
  : result value :=
  letr df := pd_DataFrame E d in
  letr df := set_index L df "date" in
  let values := ["open"; "high"; "low"; "close"; "volume"] in
  letr df := columns L df values in
  let sstart := strftime L (start self) "%Y-%m-%d" in
  let send := strftime L (end_ self) "%Y-%m-%d" in
  loc L df sstart send.

(** The frame of one entry of the response: that of its chart. *)
Definition entry_frame (E : collaborators) (L : library) (self : t)
    (entry : gmap string value) : result value :=
  letr d := dict_getitem entry "chart" in
  frame E L self d.

(** The body of the loop [for symbol in self.symlist] of
    [_output_format]; the locals carried along are [out] and [result]. *)
Definition output_symbol (E : collaborators) (L : library) (self : t)
    (locals : response * gmap string value) (symbol : value)
  : result (response * gmap string value) :=
  let '(out, result) := locals in
  letr popped := pop out symbol in
  let '(key, entry, out) := popped in
  letr df := entry_frame E L self entry in
  Ok (out, <[key := df]> result).

(** The body of the loop [for sym in list(result)]; [frames] is the
    dictionary [result]. *)
Definition convert_symbol (L : library) (frames : gmap string value)
    (sym : string) : result (gmap string value) :=
  letr df := dict_getitem frames sym in
  letr converted := to_dict L df "index" in
  Ok (<[sym := converted]> frames).

(** The comparison [is "pandas"] is taken as string equality.  The last
    loop visits the keys of [result] in the order of [map_to_list]. *)
Definition _output_format (E : collaborators) (L : library) (self : t)
    (out : response) : result value :=
  letr locals := fold_result (symlist self) (output_symbol E L self)
                             (out, ∅) in
  let result := locals.2 in
  if String.eqb (output_format self) "pandas" then
    if (1 <? size result)%nat then Ok (VDict result)
    else dict_getitem_value result (symbols self)
  else
    letr result := fold_result (map_to_list result).*1 (convert_symbol L)
                               result in
    Ok (VDict result).

(** The outcome of [fetch]: a value, an exception of [exn], or
    [IEXSymbolError(symbol)] for a [symbol] of any type. *)
Inductive fetched (A : Type) :=
| Fetched (a : A)
| Failed (e : exn)
| NotFound (symbol : value).
Arguments Fetched {A} a.
Arguments Failed {A} e.
Arguments NotFound {A} symbol.

(** Whether some key equals the pandas object [obj], the keys compared in
    turn with [key == obj]. *)
Fixpoint any_equal (L : library) (keys : list string) (obj : value)
  : result bool :=
  match keys with
  | [] => Ok false
  | k :: keys' =>
      letr same := pd_eq L k obj in
      if same then Ok true else any_equal L keys' obj
  end.

(** [sym in keys], the keys being strings: a string is looked up, a pandas
    object is compared with each key, any other object equals no key. *)
Definition contains (L : library) (keys : list string) (sym : value)
  : result bool :=
  match sym with
  | VStr s => Ok (bool_decide (s ∈ keys))
  | VPandas _ => any_equal L keys sym
  | _ => Ok false
  end.

(** The loop [for sym in self.symlist] of [fetch]: the first symbol that
    is not among the keys of the response, if any. *)
Fixpoint validate (L : library) (symlist : list value) (response : response)
  : fetched unit :=
  match symlist with
  | [] => Fetched tt
  | sym :: rest =>
      match contains L (map_to_list response).*1 sym with
      | Raise e => Failed e
      | Ok false => NotFound sym
      | Ok true => validate L rest response
      end
  end.

(** Modelled from the spec: [_IEXBase.fetch] as this class inherits it
    (the base class is not among the sources): one GET of [url] with
    [params], or the exception raised while [params] is read; [now] is the
    current date at that moment. *)
Definition super_fetch (E : collaborators) (L : library) (now : datetime)
    (self : t) : result response :=
  letr request := params L now self in
  GET E url request.

Definition fetch (E : collaborators) (L : library) (now : datetime)
    (self : t) : fetched value :=
  match super_fetch E L now self with
  | Raise e => Failed e
  | Ok response =>
      match validate L (symlist self) response with
      | Failed e => Failed e
      | NotFound sym => NotFound sym
      | Fetched _ =>
          match _output_format E L self response with
          | Ok v => Fetched v
          | Raise e => Failed e
          end
      end
  end.

End HistoricalReader.

(** ** The decorated methods of [StockReader] *)

(** [decorated override func]: the class decorates the body [func] with
    [@output_format(override=override)].  The aliases [get_open_close] and
    [get_time_series] are [get_ohlc] and [get_chart]. *)
Inductive decorated : option string -> M value -> Prop :=
| dec_get_all :
    decorated (Some "json") StockReader.func.get_all
| dec_get_select_endpoints endpoints :
    decorated (Some "json") (StockReader.func.get_select_endpoints endpoints)
| dec_endpoint name :
    name ∈ ["quote"; "book"; "previous"; "company"; "stats"; "peers";
            "relevant"; "news"; "financials"; "earnings"; "dividends";
            "splits"; "logo"; "delayed-quote"; "effective-spread";
            "volume-by-venue"; "ohlc"] ->
    decorated None (StockReader.func.endpoint name)
| dec_endpoint_json name :
    name ∈ ["chart"; "price"] ->
    decorated (Some "json") (StockReader.func.endpoint name)
| dec_quote_field name :
    name ∈ ["companyName"; "primaryExchange"; "sector"; "open"; "close";
            "week52High"; "week52Low"; "ytdChange"; "latestVolume";
            "marketCap"] ->
    decorated (Some "json")
              (StockReader.func.field StockReader.get_quote name)
| dec_stats_field name :
    name ∈ ["beta"; "shortInterest"; "shortRatio"; "latestEPS";
            "sharesOutstanding"; "float"; "consensusEPS"] ->
    decorated (Some "json")
              (StockReader.func.field StockReader.get_key_stats name).

(** A computation that leaves the instance alone: whatever the warnings
    issued before, it returns the same result and only appends to them. *)
Definition readonly {A} (m : M A) : Prop :=
  forall E s, exists r log,
    forall ws, m E (World s ws) = (r, World s (ws ++ log)).

(** [consolidated group1 group2 cur x]: in [cur], the symbol [x] holds its
    entry of the first response updated with its entry of the second. *)
Definition consolidated (group1 group2 cur : response) (x : string)
  : Prop :=
  exists e1 e2,
    group1 !! x = Some e1 /\ group2 !! x = Some e2 /\
    cur !! x = Some (dict_update e1 e2).

(** ** Sample data *)

Module Sample.

Definition quote_aapl : value :=
  VDict (<["companyName" := VStr "Apple Inc."]>
           (<["latestVolume" := VInt 20567140]> ∅)).

Definition quote_tsla : value :=
  VDict (<["companyName" := VStr "Tesla Inc."]>
           (<["latestVolume" := VInt 4236380]> ∅)).

Definition aapl1 : gmap string value :=
  <["quote" := quote_aapl]> (<["chart" := VList []]> ∅).
Definition aapl2 : gmap string value :=
  <["price" := VFloat (Qmake 17150 100)]> ∅.
Definition tsla1 : gmap string value :=
  <["quote" := quote_tsla]> (<["chart" := VList []]> ∅).
Definition tsla2 : gmap string value :=
  <["price" := VFloat (Qmake 31022 100)]> ∅.

(** The answers to the two requests of one refresh. *)
Definition group1 : response := <["AAPL" := aapl1]> (<["TSLA" := tsla1]> ∅).
Definition group2 : response := <["AAPL" := aapl2]> (<["TSLA" := tsla2]> ∅).

(** A pandas that accepts anything and selects by key. *)
Definition pandas_select (p : value) (k : string) : result value :=
  match p with
  | VDict d =>
      match d !! k with
      | Some v => Ok (VPandas v)
      | None => Raise (KeyError (VStr k))
      end
  | _ => Raise (KeyError (VStr k))
  end.

(** A transport answering [answer1] to the request for the first endpoint
    group and [answer2] to any other. *)
Definition serve (answer1 answer2 : response) : collaborators :=
  Collaborators
    (fun _ params =>
       match params !! "types" with
       | Some (VStr types) =>
           if String.eqb types StockReader.ALL_ENDPOINTS_STR_1
           then Ok answer1 else Ok answer2
       | _ => Raise IEXQueryError
       end)
    (fun v => Ok (VPandas v))
    pandas_select.

(** A server that lists AAPL and TSLA; a server that lists AAPL only;
    and a server whose second answer is empty. *)
Definition server : collaborators := serve group1 group2.
Definition aapl_server : collaborators :=
  serve (<["AAPL" := aapl1]> ∅) (<["AAPL" := aapl2]> ∅).
Definition uneven_server : collaborators :=
  serve (<["AAPL" := aapl1]> ∅) ∅.

Definition fresh : world := World Self.blank [].

(** [StockReader(symbols, output_format=fmt)] against the server [E],
    all options at their defaults *)
Definition construct (E : collaborators) (symbols : list string)
    (fmt : string) : result unit * world :=
  StockReader.__init__ (List (VStr <$> symbols)) (VBool false) "1m" 10
                       fmt E fresh.

Definition share_json : world := (construct aapl_server ["aapl"] "json").2.
Definition share_pandas : world :=
  (construct aapl_server ["aapl"] "pandas").2.
Definition batch_json : world :=
  (construct server ["aapl"; "tsla"] "json").2.

(** [batch_json] after a later [refresh] that failed because TSLA was no
    longer listed. *)
Definition stale : world :=
  (StockReader.refresh aapl_server batch_json).2.

(** Instances given attribute by attribute. *)
Definition default_reader : Self.t :=
  Self.mk ["AAPL"; "TSLA"] "batch" "json" (VBool false) "1m" 10
          StockReader.ALL_ENDPOINTS_STR_1 ∅.

Definition percent_reader : Self.t :=
  Self.mk ["AAPL"; "TSLA"] "batch" "json" (VBool true) "1m" 10
          StockReader.ALL_ENDPOINTS_STR_1 ∅.

(** Dates, and a historical reader for AAPL starting at [start]. *)
Definition d2010 := HistoricalReader.Datetime 2010 1 4.
Definition d2015 := HistoricalReader.Datetime 2015 6 1.
Definition d2017 := HistoricalReader.Datetime 2017 2 9.
Definition d2018 := HistoricalReader.Datetime 2018 3 1.

Definition historical (start : HistoricalReader.datetime)
  : HistoricalReader.t :=
  HistoricalReader.mk "Share" [VStr "AAPL"] (VStr "AAPL") start d2018
                      "json".

End Sample.

(** ** Auxiliary notions *)

(** The value of [field] inside the endpoint [endpoint] of an entry, when
    that endpoint is a dictionary holding the field. *)
Definition field_of (endpoint field : string) (entry : gmap string value)
  : option value :=
  match entry !! endpoint with
  | Some (VDict d) => d !! field
  | _ => None
  end.

(** [m] cut down to the keys listed in [keys] *)
Definition restrict {V} (keys : list string) (m : gmap string V)
  : gmap string V :=
  filter (fun kv => kv.1 ∈ keys) m.

(** The endpoints an argument of [get_select_endpoints] stands for. *)
Definition endpoint_list (endpoints : str_or_list string) : list string :=
  match endpoints with
  | Str s => [s]
  | List l => l
  end.

(** ** More sample data *)

Module Fixture.

(** A transport that is down, and one that answers the first request of a
    refresh and fails on the second. *)
Definition down_server : collaborators :=
  Collaborators (fun _ _ => Raise IEXQueryError)
                (fun v => Ok (VPandas v))
                Sample.pandas_select.

Definition half_server : collaborators :=
  Collaborators
    (fun _ params =>
       match params !! "types" with
       | Some (VStr types) =>
           if String.eqb types StockReader.ALL_ENDPOINTS_STR_1
           then Ok Sample.group1 else Raise IEXQueryError
       | _ => Raise IEXQueryError
       end)
    (fun v => Ok (VPandas v))
    Sample.pandas_select.

(** A single-symbol instance whose data set also holds TSLA, which the
    server sent unasked; and a batch instance in tabular mode. *)
Definition overfull : world :=
  (Sample.construct Sample.server ["aapl"] "json").2.

Definition batch_pandas : world :=
  (Sample.construct Sample.server ["aapl"; "tsla"] "pandas").2.

(** [Sample.share_json] after a later [refresh] against a server that
    lists TSLA only: the refresh failed and left a data set without AAPL. *)
Definition delisted : world :=
  (StockReader.refresh
     (Sample.serve (<["TSLA" := Sample.tsla1]> ∅)
                   (<["TSLA" := Sample.tsla2]> ∅))
     Sample.share_json).2.

(** The entries of AAPL and TSLA once consolidated. *)
Definition aapl : gmap string value := dict_update Sample.aapl1 Sample.aapl2.
Definition tsla : gmap string value := dict_update Sample.tsla1 Sample.tsla2.

(** Charts for the historical reader, and a server that sends them. *)
Definition bar : value :=
  VDict (<["date" := VStr "2017-02-09"]>
           (<["close" := VFloat (Qmake 13242 100)]> ∅)).

Definition chart_aapl : gmap string value := <["chart" := VList [bar]]> ∅.
Definition chart_tsla : gmap string value := <["chart" := VList []]> ∅.

Definition charts : response :=
  <["AAPL" := chart_aapl]> (<["TSLA" := chart_tsla]> ∅).

Definition chart_server : collaborators :=
  Collaborators (fun _ _ => Ok charts)
                (fun v => Ok (VPandas v))
                Sample.pandas_select.

(** A library that formats every date as the format string, leaves frames
    as they are, and converts a frame to what it was built from. *)
Definition plain : HistoricalReader.library :=
  HistoricalReader.Library
    (fun _ format => format)
    (fun df _ => Ok df)
    (fun df _ => Ok df)
    (fun df _ _ => Ok df)
    (fun df _ => match df with
                 | VPandas v => Ok v
                 | _ => Raise (AttributeError "to_dict")
                 end)
    (fun _ => Ok [])
    (fun _ _ => Raise (ValueError "The truth value is ambiguous")).

(** Historical readers as the constructor builds them. *)
Definition share_reader (fmt : string) : HistoricalReader.t :=
  HistoricalReader.mk "Share" [VStr "AAPL"] (VStr "AAPL")
                      Sample.d2017 Sample.d2018 fmt.

Definition batch_reader (symbols : list string) (fmt : string)
  : HistoricalReader.t :=
  HistoricalReader.mk "Batch" (VStr <$> symbols) (VList (VStr <$> symbols))
                      Sample.d2017 Sample.d2018 fmt.

Definition old_reader : HistoricalReader.t :=
  HistoricalReader.mk "Share" [VStr "AAPL"] (VStr "AAPL")
                      Sample.d2010 Sample.d2018 "json".

End Fixture.

(** * Properties *)

(** ** The historical reader *)

Section Historical.
Import HistoricalReader.

Variables (now : datetime) (self : t).

(** C2. With [delta] the current year minus the start year, the lookback
    bucket is 5y for delta in [2,5], 2y for delta in [1,2), 1y for delta in
    [0,1), and for every other delta resolution fails with the
    invalid-date error. *)
Theorem chart_range_buckets :
  let delta := (year now - year (start self))%Z in
  ((2 <= delta <= 5)%Z -> chart_range now self = Ok "5y") /\
  ((1 <= delta < 2)%Z -> chart_range now self = Ok "2y") /\
  ((0 <= delta < 1)%Z -> chart_range now self = Ok "1y") /\
  ((delta < 0 \/ 5 < delta)%Z ->
   chart_range now self =
     Raise (ValueError
              "Invalid date specified. Must be within past 5 years.")).
Proof.
  intros delta. unfold chart_range. fold delta.
  repeat split; intros H;
    repeat match goal with
           | |- context [(?a <=? ?b)%Z] => destruct (Z.leb_spec a b)
           | |- context [(?a <? ?b)%Z] => destruct (Z.ltb_spec a b)
           end; simpl; try reflexivity; lia.
Qed.

End Historical.

Lemma chart_range_buckets_witness :
  HistoricalReader.chart_range Sample.d2018 (Sample.historical Sample.d2015)
    = Ok "5y" /\
  HistoricalReader.chart_range Sample.d2018 (Sample.historical Sample.d2017)
    = Ok "2y" /\
  HistoricalReader.chart_range Sample.d2018 (Sample.historical Sample.d2018)
    = Ok "1y" /\
  HistoricalReader.chart_range Sample.d2018 (Sample.historical Sample.d2010)
    = Raise (ValueError
               "Invalid date specified. Must be within past 5 years.").
Proof.
  split; [| split; [| split]].
  - apply (chart_range_buckets Sample.d2018
             (Sample.historical Sample.d2015)); simpl; lia.
  - apply (chart_range_buckets Sample.d2018
             (Sample.historical Sample.d2017)); simpl; lia.
  - apply (chart_range_buckets Sample.d2018
             (Sample.historical Sample.d2018)); simpl; lia.
  - apply (chart_range_buckets Sample.d2018
             (Sample.historical Sample.d2010)); simpl; lia.
Defined.

Section HistoricalInit.
Import HistoricalReader.

Variables (symbols : value) (start end_ : datetime) (fmt : string).

(** C5. A single string selects single-symbol mode; a list of more than
    one element selects batch mode; every other value, a one-element list
    included, makes construction fail with the invalid-input error. *)
Theorem historical_symbols_classification :
  (forall s, symbols = VStr s ->
     __init__ symbols start end_ fmt
       = Ok (mk "Share" [VStr s] symbols start end_ fmt)) /\
  (forall l, symbols = VList l -> (1 < length l)%nat ->
     __init__ symbols start end_ fmt
       = Ok (mk "Batch" l symbols start end_ fmt)) /\
  ((forall s, symbols <> VStr s) ->
   (forall l, symbols = VList l -> (length l <= 1)%nat) ->
     __init__ symbols start end_ fmt
       = Raise (ValueError "Please input a symbol or list of symbols")).
Proof.
  repeat split.
  - intros s ->. reflexivity.
  - intros l -> Hlen. simpl.
    destruct (Nat.ltb_spec 1 (length l)); [reflexivity | lia].
  - intros Hstr Hlist. destruct symbols; simpl; try reflexivity.
    + exfalso. eapply Hstr. reflexivity.
    + destruct (Nat.ltb_spec 1 (length l)); [| reflexivity].
      specialize (Hlist l eq_refl). lia.
Qed.

End HistoricalInit.

Lemma historical_symbols_classification_witness :
  HistoricalReader.type <$>
    match HistoricalReader.__init__ (VStr "AAPL") Sample.d2017 Sample.d2018
                                    "json" with
    | Ok r => Some r
    | Raise _ => None
    end = Some "Share" /\
  HistoricalReader.__init__ (VList [VStr "AAPL"; VStr "TSLA"]) Sample.d2017
                            Sample.d2018 "json"
    = Ok (HistoricalReader.mk "Batch" [VStr "AAPL"; VStr "TSLA"]
            (VList [VStr "AAPL"; VStr "TSLA"]) Sample.d2017 Sample.d2018
            "json") /\
  HistoricalReader.__init__ (VList [VStr "AAPL"]) Sample.d2017 Sample.d2018
                            "json"
    = Raise (ValueError "Please input a symbol or list of symbols") /\
  HistoricalReader.__init__ (VInt 34) Sample.d2017 Sample.d2018 "json"
    = Raise (ValueError "Please input a symbol or list of symbols").
Proof.
  split; [| split; [| split]].
  - rewrite (proj1 (historical_symbols_classification (VStr "AAPL")
                      Sample.d2017 Sample.d2018 "json") "AAPL" eq_refl).
    reflexivity.
  - apply (historical_symbols_classification
             (VList [VStr "AAPL"; VStr "TSLA"])); [reflexivity | simpl; lia].
  - apply (historical_symbols_classification (VList [VStr "AAPL"])).
    + intros s; discriminate.
    + intros l [= <-]. simpl. lia.
  - apply (historical_symbols_classification (VInt 34)).
    + intros s; discriminate.
    + intros l; discriminate.
Defined.

(** ** Request parameters *)

Section Params.
Import StockReader.

Variable self : Self.t.

(** C7. With every option at its default (range 1m, last 10,
    displayPercent false) the request parameters hold the symbols and
    types keys only, and none of range, last, displayPercent. *)
Theorem default_options_params_minimal :
  Self.range self = "1m" ->
  Self.last self = 10%Z ->
  Self.displayPercent self = VBool false ->
  params self
    = <["types" := VStr (Self.endpoints self)]>
        (<["symbols" := VStr (String.concat "," (Self.symbols self))]> ∅)
  /\ dom (params self) = {["symbols"; "types"]}
  /\ params self !! "range" = None
  /\ params self !! "last" = None
  /\ params self !! "displayPercent" = None.
Proof.
  intros Hrange Hlast Hpercent.
  assert (Hdefault : _default_options self = true).
  { unfold _default_options. rewrite Hrange, Hlast, Hpercent. reflexivity. }
  unfold params. rewrite Hdefault. simpl.
  split; [reflexivity |].
  split; [rewrite !dom_insert_L, dom_empty_L; set_solver |].
  repeat split; rewrite !lookup_insert_ne by discriminate;
    apply lookup_empty.
Qed.

(** C8. As soon as one of range, last, displayPercent differs from its
    default, the request parameters carry all three keys, the options
    still at their default included. *)
Theorem nondefault_options_params_complete :
  Self.range self <> "1m" \/ Self.last self <> 10%Z \/
    Self.displayPercent self <> VBool false ->
  params self !! "range" = Some (VStr (Self.range self)) /\
  params self !! "last" = Some (VInt (Self.last self)) /\
  params self !! "displayPercent" = Some (Self.displayPercent self).
Proof.
  intros Hsome.
  assert (Hdefault : _default_options self = false).
  { unfold _default_options.
    destruct (String.eqb_spec (Self.range self) "1m") as [Hr | Hr];
      [| reflexivity].
    destruct (Z.eqb_spec (Self.last self) 10) as [Hl | Hl];
      [| reflexivity].
    destruct (Self.displayPercent self) as [| [] | | | | | |];
      try reflexivity.
    exfalso. destruct Hsome as [? | [? | ?]]; congruence. }
  unfold params. rewrite Hdefault. simpl.
  split; [| split].
  - rewrite !lookup_insert_ne by discriminate. apply lookup_insert_eq.
  - rewrite lookup_insert_ne by discriminate. apply lookup_insert_eq.
  - apply lookup_insert_eq.
Qed.

End Params.

Lemma default_options_params_minimal_witness :
  dom (StockReader.params Sample.default_reader) = {["symbols"; "types"]}.
Proof.
  apply (default_options_params_minimal Sample.default_reader);
    reflexivity.
Defined.

Lemma nondefault_options_params_complete_witness :
  StockReader.params Sample.percent_reader !! "range" = Some (VStr "1m") /\
  StockReader.params Sample.percent_reader !! "last" = Some (VInt 10) /\
  StockReader.params Sample.percent_reader !! "displayPercent"
    = Some (VBool true).
Proof.
  apply (nondefault_options_params_complete Sample.percent_reader).
  right; right. simpl. discriminate.
Defined.

(** ** Refreshing the data set *)

Lemma set_data_set_same (s : Self.t) :
  Self.set_data_set (Self.data_set s) s = s.
Proof. destruct s; reflexivity. Qed.

Section Refresh.
Import StockReader.

Variable E : collaborators.

Section Loop.
Variables (group1 group2 : response).

(** One round of the loop of [refresh], computed. *)
Lemma refresh_symbol_run symbol s ws :
  refresh_symbol group2 symbol E (World s ws)
    = match Self.data_set s !! symbol with
      | None => (Raise (IEXSymbolError symbol), World s ws)
      | Some entry =>
          match group2 !! symbol with
          | None => (Raise (KeyError (VStr symbol)), World s ws)
          | Some extra =>
              (Ok tt,
               World (Self.set_data_set
                        (<[symbol := dict_update entry extra]>
                           (Self.data_set s)) s) ws)
          end
      end.
Proof.
  unfold refresh_symbol. cbv [bind getattr raise lift setattr dict_getitem].
  simpl. destruct (Self.data_set s !! symbol); [| reflexivity].
  by destruct (group2 !! symbol).
Qed.

(** Updating with the same entries a second time changes nothing. *)
Lemma dict_update_twice {V} (d other : gmap string V) :
  dict_update (dict_update d other) other = dict_update d other.
Proof. unfold dict_update. by rewrite (assoc_L (∪)), (idemp_L (∪)). Qed.

(** The loop of [refresh], started on a data set in which the symbols in
    [done] are consolidated already and every other symbol is as the first
    response has it. *)
Lemma refresh_loop (l : list string) :
  forall (done : list string) s ws r w',
    (forall x, x ∈ done -> consolidated group1 group2 (Self.data_set s) x) ->
    (forall x, x ∉ done -> Self.data_set s !! x = group1 !! x) ->
    for_in l (fun _ symbol => refresh_symbol group2 symbol) tt E (World s ws)
      = (r, w') ->
    match r with
    | Ok _ =>
        exists cur,
          w' = World (Self.set_data_set cur s) ws /\
          (forall x, x ∈ l \/ x ∈ done -> consolidated group1 group2 cur x) /\
          (forall x, x ∉ l -> x ∉ done -> cur !! x = group1 !! x)
    | Raise (IEXSymbolError x) => x ∈ l /\ group1 !! x = None
    | Raise (KeyError k) =>
        exists x, k = VStr x /\ x ∈ l /\ is_Some (group1 !! x) /\
                  group2 !! x = None
    | Raise _ => False
    end.
Proof.
  induction l as [| y l IH]; intros done s ws r w' Hdone Hrest Hrun.
  { simpl in Hrun. unfold ret in Hrun. injection Hrun as <- <-.
    exists (Self.data_set s). rewrite set_data_set_same.
    split; [reflexivity |]. split; [| auto].
    intros x [Hx | Hx]; [inversion Hx | auto]. }
  simpl in Hrun. unfold bind at 1 in Hrun.
  rewrite refresh_symbol_run in Hrun.
  assert (Hfirst : forall entry, Self.data_set s !! y = Some entry ->
            exists e1, group1 !! y = Some e1 /\
              forall extra, group2 !! y = Some extra ->
                dict_update entry extra = dict_update e1 extra).
  { intros entry Hentry. destruct (decide (y ∈ done)) as [Hy | Hy].
    - destruct (Hdone y Hy) as (e1 & e2 & H1 & H2 & Hcur).
      exists e1. split; [exact H1 |]. intros extra Hextra.
      assert (entry = dict_update e1 e2) as -> by congruence.
      assert (extra = e2) as -> by congruence.
      apply dict_update_twice.
    - exists entry. split; [by rewrite <- (Hrest y Hy) | done]. }
  destruct (Self.data_set s !! y) as [entry |] eqn:Hentry.
  2: { injection Hrun as <- <-. split; [by left |].
       destruct (decide (y ∈ done)) as [Hy | Hy].
       - destruct (Hdone y Hy) as (? & ? & _ & _ & ?). congruence.
       - by rewrite <- (Hrest y Hy). }
  destruct (Hfirst entry eq_refl) as (e1 & H1 & Hsame).
  destruct (group2 !! y) as [extra |] eqn:Hextra.
  2: { injection Hrun as <- <-. exists y.
       split; [reflexivity |]. split; [by left |].
       split; [by rewrite H1 | exact Hextra]. }
  rewrite (Hsame extra eq_refl) in Hrun.
  apply (IH (y :: done)) in Hrun; simpl.
  - destruct r as [[] | e].
    + destruct Hrun as (cur & -> & Hc1 & Hc2). exists cur.
      split; [reflexivity |]. split.
      * intros x Hx. apply Hc1. rewrite !elem_of_cons in *. tauto.
      * intros x Hx Hx'. apply Hc2; rewrite ?elem_of_cons in *; tauto.
    + destruct e; try exact Hrun.
      * destruct Hrun as [Hin Hnone]. split; [by right | exact Hnone].
      * destruct Hrun as (x & -> & Hin & Hsome & Hnone). exists x.
        split; [reflexivity |]. split; [by right | done].
  - intros x [-> | Hx]%elem_of_cons.
    + exists e1, extra. by rewrite lookup_insert_eq.
    + destruct (decide (x = y)) as [-> | Hne].
      * exists e1, extra. by rewrite lookup_insert_eq.
      * destruct (Hdone x Hx) as (a & b & ? & ? & ?).
        exists a, b. by rewrite lookup_insert_ne.
  - intros x Hx. rewrite elem_of_cons in Hx.
    rewrite lookup_insert_ne by (intros ->; tauto).
    apply Hrest. tauto.
Qed.

End Loop.

Lemma refresh_unfold s ws d1 d2 :
  GET E url (params (Self.set_endpoints ALL_ENDPOINTS_STR_1 s)) = Ok d1 ->
  GET E url (params (Self.set_endpoints ALL_ENDPOINTS_STR_2 s)) = Ok d2 ->
  refresh E (World s ws)
    = for_in (Self.symbols s) (fun _ symbol => refresh_symbol d2 symbol) tt
             E (World (Self.set_data_set d1
                         (Self.set_endpoints ALL_ENDPOINTS_STR_2 s)) ws).
Proof.
  intros H1 H2. unfold refresh.
  cbv [bind setattr fetch getattr]. cbn [self warnings].
  rewrite H1.
  change (params (Self.set_endpoints ALL_ENDPOINTS_STR_2
                    (Self.set_data_set d1
                       (Self.set_endpoints ALL_ENDPOINTS_STR_1 s))))
    with (params (Self.set_endpoints ALL_ENDPOINTS_STR_2 s)).
  rewrite H2. reflexivity.
Qed.

(** The outcome of [refresh] once both requests are answered. *)
Lemma refresh_outcome s ws d1 d2 :
  GET E url (params (Self.set_endpoints ALL_ENDPOINTS_STR_1 s)) = Ok d1 ->
  GET E url (params (Self.set_endpoints ALL_ENDPOINTS_STR_2 s)) = Ok d2 ->
  match (refresh E (World s ws)).1 with
  | Ok _ =>
      exists cur,
        (refresh E (World s ws)).2
          = World (Self.set_data_set cur
                     (Self.set_endpoints ALL_ENDPOINTS_STR_2 s)) ws /\
        (forall x, x ∈ Self.symbols s -> consolidated d1 d2 cur x) /\
        (forall x, x ∉ Self.symbols s -> cur !! x = d1 !! x)
  | Raise (IEXSymbolError x) => x ∈ Self.symbols s /\ d1 !! x = None
  | Raise (KeyError k) =>
      exists x, k = VStr x /\ x ∈ Self.symbols s /\ is_Some (d1 !! x) /\
                d2 !! x = None
  | Raise _ => False
  end.
Proof.
  intros H1 H2. rewrite (refresh_unfold s ws d1 d2 H1 H2).
  destruct (for_in _ _ _ _ _) as [r w'] eqn:Hrun.
  apply (refresh_loop d1 d2 _ []) in Hrun; simpl.
  - destruct r as [[] | e]; [| exact Hrun].
    destruct Hrun as (cur & -> & Hc1 & Hc2). exists cur.
    split; [reflexivity |]. split.
    + intros x Hx. apply Hc1. by left.
    + intros x Hx. apply Hc2; [done | apply not_elem_of_nil].
  - intros x Hx. inversion Hx.
  - reflexivity.
Qed.

(** A successful [refresh] had both requests answered and leaves every
    requested symbol consolidated. *)
Lemma refresh_success s ws w' :
  refresh E (World s ws) = (Ok tt, w') ->
  exists d1 d2 cur,
    GET E url (params (Self.set_endpoints ALL_ENDPOINTS_STR_1 s)) = Ok d1 /\
    GET E url (params (Self.set_endpoints ALL_ENDPOINTS_STR_2 s)) = Ok d2 /\
    w' = World (Self.set_data_set cur
                  (Self.set_endpoints ALL_ENDPOINTS_STR_2 s)) ws /\
    forall x, x ∈ Self.symbols s -> consolidated d1 d2 cur x.
Proof.
  intros Hrun.
  destruct (GET E url (params (Self.set_endpoints ALL_ENDPOINTS_STR_1 s)))
    as [d1 | e1] eqn:H1.
  - destruct (GET E url
                  (params (Self.set_endpoints ALL_ENDPOINTS_STR_2 s)))
      as [d2 | e2] eqn:H2.
    + pose proof (refresh_outcome s ws d1 d2 H1 H2) as Hout.
      rewrite Hrun in Hout. simpl in Hout.
      destruct Hout as (cur & -> & Hc & _). by exists d1, d2, cur.
    + exfalso. revert Hrun. unfold refresh.
      cbv [bind setattr fetch getattr]. cbn [self warnings].
      rewrite H1.
      change (params (Self.set_endpoints ALL_ENDPOINTS_STR_2
                        (Self.set_data_set d1
                           (Self.set_endpoints ALL_ENDPOINTS_STR_1 s))))
        with (params (Self.set_endpoints ALL_ENDPOINTS_STR_2 s)).
      rewrite H2. discriminate.
  - exfalso. revert Hrun. unfold refresh.
    cbv [bind setattr fetch getattr]. cbn [self warnings].
    rewrite H1. discriminate.
Qed.

(** C3, amended. Provided every requested symbol present in the first
    response is also present in the second, [refresh] fails with the
    symbol error exactly when some requested symbol is absent from the
    first response, it fails in no other way, and when it succeeds every
    requested symbol maps to its first-response entry updated with its
    second-response entry (their union, the second response winning on a
    shared endpoint name). *)
Theorem refresh_consolidates s ws d1 d2 :
  GET E url (params (Self.set_endpoints ALL_ENDPOINTS_STR_1 s)) = Ok d1 ->
  GET E url (params (Self.set_endpoints ALL_ENDPOINTS_STR_2 s)) = Ok d2 ->
  (forall x, x ∈ Self.symbols s -> is_Some (d1 !! x) -> is_Some (d2 !! x)) ->
  ((exists x, (refresh E (World s ws)).1 = Raise (IEXSymbolError x)) <->
   (exists x, x ∈ Self.symbols s /\ d1 !! x = None)) /\
  ((refresh E (World s ws)).1 = Ok tt \/
   exists x, (refresh E (World s ws)).1 = Raise (IEXSymbolError x)) /\
  ((refresh E (World s ws)).1 = Ok tt ->
   forall x, x ∈ Self.symbols s ->
     consolidated d1 d2
       (Self.data_set (self (refresh E (World s ws)).2)) x).
Proof.
  intros H1 H2 Hboth.
  pose proof (refresh_outcome s ws d1 d2 H1 H2) as Hout.
  destruct (refresh E (World s ws)) as [r w'] eqn:Hrun. simpl in *.
  destruct r as [[] | e].
  - destruct Hout as (cur & -> & Hc & _). split; [| split].
    + split; [intros [x Hx]; discriminate |].
      intros (x & Hx & Hnone). destruct (Hc x Hx) as (? & ? & ? & _).
      congruence.
    + by left.
    + intros _ x Hx. simpl. by apply Hc.
  - destruct e; try contradiction.
    + destruct Hout as [Hin Hnone]. split; [| split].
      * split; [intros _; by exists symbol | intros _; by exists symbol].
      * right. by exists symbol.
      * discriminate.
    + destruct Hout as (x & -> & Hin & Hsome & Hnone). exfalso.
      destruct (Hboth x Hin Hsome) as [? ?]. congruence.
Qed.
End Refresh.

Lemma refresh_consolidates_witness :
  consolidated Sample.group1 Sample.group2
    (Self.data_set
       (self (StockReader.refresh Sample.server
                (World Sample.default_reader [])).2)) "TSLA".
Proof.
  assert (Hok : (StockReader.refresh Sample.server
                   (World Sample.default_reader [])).1 = Ok tt)
    by (vm_compute; reflexivity).
  refine (proj2 (proj2 (refresh_consolidates Sample.server
            Sample.default_reader [] Sample.group1 Sample.group2
            eq_refl eq_refl _)) Hok "TSLA" _).
  - intros x Hx _. simpl in Hx.
    apply elem_of_cons in Hx as [-> | Hx];
      [| apply elem_of_cons in Hx as [-> | Hx]; [| inversion Hx]];
      eexists; vm_compute; reflexivity.
  - simpl. right; left.
Defined.

(** C3 as stated fails: the first response lacks TSLA, yet [refresh] does
    not fail with the symbol error; it fails earlier, with a key error on
    AAPL, which the second response lacks. *)
Lemma refresh_symbol_error_not_exact :
  GET Sample.uneven_server StockReader.url
      (StockReader.params
         (Self.set_endpoints StockReader.ALL_ENDPOINTS_STR_1
                             Sample.default_reader))
    = Ok (<["AAPL" := Sample.aapl1]> ∅) /\
  ~ ((exists x, (StockReader.refresh Sample.uneven_server
                   (World Sample.default_reader [])).1
                = Raise (IEXSymbolError x)) <->
     (exists x, x ∈ Self.symbols Sample.default_reader /\
                (<["AAPL" := Sample.aapl1]> ∅ : response) !! x = None)).
Proof.
  split; [reflexivity |].
  intros [_ Hback].
  destruct Hback as [x Hx].
  - exists "TSLA". split; [right; left | reflexivity].
  - revert Hx. vm_compute. discriminate.
Qed.

(** ** Construction *)

Lemma upper_ascii_idemp c : upper_ascii (upper_ascii c) = upper_ascii c.
Proof. destruct c as [[] [] [] [] [] [] [] []]; reflexivity. Qed.

Lemma upper_idemp s : upper (upper s) = upper s.
Proof.
  induction s as [| c s IH]; simpl; [reflexivity |].
  by rewrite upper_ascii_idemp, IH.
Qed.

Lemma map_result_upper l : forall ups,
  map_result value_upper l = Ok ups ->
  exists names, l = VStr <$> names /\ ups = upper <$> names.
Proof.
  induction l as [| v l IH]; simpl; intros ups Hups.
  - injection Hups as <-. by exists [].
  - destruct v; simpl in Hups; try discriminate.
    destruct (map_result value_upper l) as [ups' |]; [| discriminate].
    injection Hups as <-. destruct (IH ups' eq_refl) as (names & -> & ->).
    by exists (s :: names).
Qed.

Section Init.
Import StockReader.

Variable E : collaborators.
Variables (symbols : str_or_list value) (displayPercent : value)
          (_range : string) (last : Z) (fmt : string).

(** What a successful construction establishes. *)
Lemma init_outcome w0 w' :
  __init__ symbols displayPercent _range last fmt E w0 = (Ok tt, w') ->
  exists ups,
    map_result value_upper (elements symbols) = Ok ups /\
    Self.symbols (self w') = ups /\
    Self.key (self w') = (if Nat.eqb (len symbols) 1 then "share"
                          else "batch") /\
    Self.output_format (self w') = fmt /\
    warnings w' = warnings w0 /\
    forall x, x ∈ ups -> is_Some (Self.data_set (self w') !! x).
Proof.
  unfold __init__. unfold bind at 1, lift at 1.
  destruct (map_result value_upper (elements symbols)) as [ups |];
    [| discriminate].
  intros Hrun. exists ups. split; [reflexivity |].
  revert Hrun. cbv [bind setattr getattr]. cbn [self warnings].
  destruct (Nat.eqb (len symbols) 1); cbn [self warnings];
    (destruct displayPercent; cbv [raise]; try discriminate;
     destruct (negb _); try discriminate;
     destruct (_ || _); try discriminate;
     cbv [ret]; intros Hrun;
     apply refresh_success in Hrun
       as (d1 & d2 & cur & _ & _ & -> & Hcons);
     simpl; repeat (split; [reflexivity |]);
     intros x Hx; destruct (Hcons x Hx) as (e1 & e2 & _ & _ & Hcur);
     simpl in Hcur; by rewrite Hcur).
Qed.

(** C9, amended. The stored symbols are the elements of the argument,
    each uppercased, in input order; repeated tickers are kept. *)
Theorem init_symbols_uppercased w0 w' :
  __init__ symbols displayPercent _range last fmt E w0 = (Ok tt, w') ->
  exists names,
    elements symbols = VStr <$> names /\
    Self.symbols (self w') = upper <$> names /\
    Forall (fun x => upper x = x) (Self.symbols (self w')).
Proof.
  intros Hrun. apply init_outcome in Hrun as (ups & Hups & Hsym & _).
  apply map_result_upper in Hups as (names & Hel & ->).
  exists names. split; [exact Hel |]. split; [exact Hsym |].
  rewrite Hsym. apply Forall_fmap, Forall_forall. intros x _. simpl.
  apply upper_idemp.
Qed.

End Init.

Lemma init_symbols_uppercased_witness :
  exists names,
    [VStr "aapl"; VStr "tsla"] = VStr <$> names /\
    Self.symbols (self Sample.batch_json) = upper <$> names /\
    Forall (fun x => upper x = x) (Self.symbols (self Sample.batch_json)).
Proof.
  apply (init_symbols_uppercased Sample.server
           (List [VStr "aapl"; VStr "tsla"]) (VBool false) "1m" 10 "json"
           Sample.fresh Sample.batch_json).
  vm_compute. reflexivity.
Defined.

(** C9 as stated fails: a ticker given twice, in different letter case, is
    stored twice. *)
Lemma init_keeps_duplicates :
  (Sample.construct Sample.server ["aapl"; "AAPL"] "json").1 = Ok tt /\
  Self.symbols (self (Sample.construct Sample.server ["aapl"; "AAPL"]
                                       "json").2) = ["AAPL"; "AAPL"] /\
  ~ NoDup (Self.symbols (self (Sample.construct Sample.server
                                 ["aapl"; "AAPL"] "json").2)).
Proof.
  split; [vm_compute; reflexivity |].
  assert (Hsym : Self.symbols (self (Sample.construct Sample.server
                   ["aapl"; "AAPL"] "json").2) = ["AAPL"; "AAPL"])
    by (vm_compute; reflexivity).
  split; [exact Hsym |]. rewrite Hsym.
  intros Hnd. apply NoDup_cons in Hnd as [Hnotin _]. apply Hnotin. by left.
Qed.

(** ** Read-only computations *)

Lemma readonly_ret {A} (a : A) : readonly (ret a).
Proof. intros E s. exists (Ok a), []. intros ws. by rewrite app_nil_r. Qed.

Lemma readonly_raise {A} e : readonly (raise (A := A) e).
Proof. intros E s. exists (Raise e), []. intros ws. by rewrite app_nil_r. Qed.

Lemma readonly_lift {A} (r : result A) : readonly (lift r).
Proof. intros E s. exists r, []. intros ws. by rewrite app_nil_r. Qed.

Lemma readonly_getattr {A} (attr : Self.t -> A) : readonly (getattr attr).
Proof.
  intros E s. exists (Ok (attr s)), []. intros ws. by rewrite app_nil_r.
Qed.

Lemma readonly_bind {A B} (m : M A) (k : A -> M B) :
  readonly m -> (forall a, readonly (k a)) -> readonly (bind m k).
Proof.
  intros Hm Hk E s. destruct (Hm E s) as (r & log & Hr).
  destruct r as [a | e].
  - destruct (Hk a E s) as (r' & log' & Hr').
    exists r', (log ++ log')%list. intros ws. unfold bind.
    by rewrite Hr, Hr', app_assoc.
  - exists (Raise e), log. intros ws. unfold bind. by rewrite Hr.
Qed.

Lemma readonly_try {A} (m handler : M A) :
  readonly m -> readonly handler -> readonly (try_except_KeyError m handler).
Proof.
  intros Hm Hh E s. destruct (Hm E s) as (r & log & Hr).
  destruct (Hh E s) as (r' & log' & Hr').
  destruct r as [a | e].
  - exists (Ok a), log. intros ws. unfold try_except_KeyError.
    by rewrite Hr.
  - destruct e;
      try (eexists _, log; intros ws; unfold try_except_KeyError;
           by rewrite Hr).
    exists r', (log ++ log')%list. intros ws. unfold try_except_KeyError.
    by rewrite Hr, Hr', app_assoc.
Qed.

Lemma readonly_for_in {A B} (body : B -> A -> M B) l :
  (forall s x, readonly (body s x)) -> forall s, readonly (for_in l body s).
Proof.
  intros Hbody. induction l as [| x l IH]; intros s; simpl.
  - apply readonly_ret.
  - apply readonly_bind; [apply Hbody | exact IH].
Qed.

(** A read-only computation returns the same result from any two worlds
    around the same instance, and leaves the instance as it was. *)
Lemma readonly_run {A} (m : M A) E w r w' :
  readonly m -> m E w = (r, w') ->
  self w' = self w /\
  forall ws, (m E (World (self w) ws)).1 = r /\
             self (m E (World (self w) ws)).2 = self w.
Proof.
  intros Hm Hrun. destruct w as [s ws0].
  destruct (Hm E s) as (r0 & log & Hr).
  rewrite Hr in Hrun. injection Hrun as <- <-.
  split; [reflexivity |]. intros ws. simpl. by rewrite Hr.
Qed.

Lemma readonly_warn msg : readonly (warn msg).
Proof. intros E s. by exists (Ok tt), [msg]. Qed.

Lemma readonly_getitem v k : readonly (getitem v k).
Proof.
  intros E s. unfold getitem.
  destruct v; eexists _, []; intros ws; by rewrite app_nil_r.
Qed.

Lemma readonly_DataFrame v : readonly (DataFrame v).
Proof.
  intros E s. exists (pd_DataFrame E v), []. intros ws.
  unfold DataFrame. by rewrite app_nil_r.
Qed.

Lemma readonly_dict_comprehension {V} (d : gmap string V) f :
  (forall k, readonly (f k)) -> readonly (dict_comprehension d f).
Proof.
  intros Hf. apply readonly_for_in. intros acc k.
  apply readonly_bind; [apply Hf | intros v; apply readonly_ret].
Qed.

Create HintDb readonly.
#[local] Hint Resolve readonly_ret readonly_raise readonly_lift
  readonly_getattr readonly_warn readonly_getitem readonly_DataFrame
  : readonly.

Ltac readonly_step :=
  match goal with
  | |- readonly (bind _ _) => apply readonly_bind; [| intros ?]
  | |- readonly (try_except_KeyError _ _) => apply readonly_try
  | |- readonly (for_in _ _ _) => apply readonly_for_in; intros ? ?
  | |- readonly (dict_comprehension _ _) =>
      apply readonly_dict_comprehension; intros ?
  | |- readonly (if ?b then _ else _) => destruct b
  | |- readonly (match ?x with _ => _ end) => destruct x
  | |- readonly _ => solve [auto with readonly]
  end.

Lemma readonly_output_format override func :
  readonly func -> readonly (output_format override func).
Proof. intros Hfunc. unfold output_format. repeat readonly_step. Qed.

Section ReadonlyMethods.
Import StockReader.

Lemma readonly_get_all : readonly func.get_all.
Proof. unfold func.get_all. repeat readonly_step. Qed.

Lemma readonly_endpoint name : readonly (func.endpoint name).
Proof. unfold func.endpoint. repeat readonly_step. Qed.

Lemma readonly_field getter name :
  readonly getter -> readonly (func.field getter name).
Proof. intros Hg. unfold func.field. repeat readonly_step. Qed.

Lemma readonly_get_select_endpoints endpoints :
  readonly (func.get_select_endpoints endpoints).
Proof.
  unfold func.get_select_endpoints, func.select_symbol,
    func.select_endpoint.
  repeat readonly_step.
Qed.

Lemma readonly_decorated override func :
  decorated override func -> readonly func.
Proof.
  destruct 1.
  - apply readonly_get_all.
  - apply readonly_get_select_endpoints.
  - apply readonly_endpoint.
  - apply readonly_endpoint.
  - apply readonly_field, readonly_output_format, readonly_endpoint.
  - apply readonly_field, readonly_output_format, readonly_endpoint.
Qed.
End ReadonlyMethods.

(** ** The decorator *)

Section Decorator.
Variables (override : option string) (func : M value).
Variables (E : collaborators) (w w1 : world).

Lemma output_format_raise e :
  func E w = (Raise e, w1) ->
  output_format override func E w = (Raise e, w1).
Proof. intros Hfunc. unfold output_format, bind. by rewrite Hfunc. Qed.

(** Structured mode: a single-symbol instance gets the entry of its
    symbol, any other instance the response itself. *)
Lemma output_format_structured response :
  func E w = (Ok response, w1) ->
  Self.output_format (self w1) <> "pandas" ->
  output_format override func E w
    = if String.eqb (Self.key (self w1)) "share" then
        match getitem0 (Self.symbols (self w1)) with
        | Ok symbol => getitem response symbol E w1
        | Raise e => (Raise e, w1)
        end
      else (Ok response, w1).
Proof.
  intros Hfunc Hfmt. unfold output_format, bind at 1. rewrite Hfunc.
  cbv [bind getattr lift ret].
  destruct (String.eqb_spec (Self.output_format (self w1)) "pandas");
    [done |].
  destruct (String.eqb (Self.key (self w1)) "share"); [| reflexivity].
  by destruct (getitem0 (Self.symbols (self w1))).
Qed.

(** Tabular mode under an override: the wrapper warns and returns
    [None], whatever the response was. *)
Lemma output_format_pandas_override name response :
  override = Some name ->
  func E w = (Ok response, w1) ->
  Self.output_format (self w1) = "pandas" ->
  output_format override func E w
    = (Ok VNone,
       World (self w1)
             (warnings w1 ++
              ["Pandas output not supported for this endpoint. Defaulting to JSON."])).
Proof.
  intros -> Hfunc Hfmt. unfold output_format, bind at 1. rewrite Hfunc.
  cbv [bind getattr warn ret]. by rewrite Hfmt.
Qed.
End Decorator.

(** ** The shape of the responses *)

Lemma comprehension_loop_keys (f : string -> M value) E r w'
    (l : list string) :
  forall (acc : gmap string value) w,
    for_in l (fun acc k => do v <- f k; ret (<[k := v]> acc)) acc E w
      = (Ok r, w') ->
    forall k, k ∈ l \/ is_Some (acc !! k) -> is_Some (r !! k).
Proof.
  induction l as [| x l IH]; intros acc w Hrun k Hk.
  - simpl in Hrun. unfold ret in Hrun. injection Hrun as <- <-.
    destruct Hk as [Hk | Hk]; [inversion Hk | exact Hk].
  - simpl in Hrun. unfold bind at 1 in Hrun.
    destruct (bind (f x) _ E w) as [[acc' | e] w2] eqn:Hstep;
      [| discriminate].
    apply (IH _ _ Hrun).
    revert Hstep. unfold bind, ret.
    destruct (f x E w) as [[v | e] w3]; [| discriminate].
    intros [= <- <-]. rewrite lookup_insert.
    destruct Hk as [[-> | Hk]%elem_of_cons | Hk].
    + right. by rewrite decide_True.
    + by left.
    + right. case_decide; [done | exact Hk].
Qed.

Lemma dict_comprehension_keys {V} (d : gmap string V) f E w r w' :
  dict_comprehension d f E w = (Ok r, w') ->
  forall k, is_Some (d !! k) -> is_Some (r !! k).
Proof.
  unfold dict_comprehension. intros Hrun k [v Hk].
  apply (comprehension_loop_keys _ _ _ _ _ _ _ Hrun). left.
  apply list_elem_of_fmap. exists (k, v). split; [done |].
  by apply elem_of_map_to_list.
Qed.

Section Responses.
Import StockReader.

Variable E : collaborators.

Lemma select_loop_keys endpoints (l : list string) :
  forall locals w locals' w',
    for_in l (func.select_symbol endpoints) locals E w
      = (Ok locals', w') ->
    forall k, k ∈ l \/ is_Some (locals.1 !! k) -> is_Some (locals'.1 !! k).
Proof.
  induction l as [| x l IH]; intros locals w locals' w' Hrun k Hk.
  - simpl in Hrun. unfold ret in Hrun. injection Hrun as <- <-.
    destruct Hk as [Hk | Hk]; [inversion Hk | exact Hk].
  - simpl in Hrun. unfold bind at 1 in Hrun.
    destruct (func.select_symbol endpoints locals x E w)
      as [[locals1 | e] w1] eqn:Hstep; [| discriminate].
    apply (IH _ _ _ _ Hrun).
    revert Hstep. destruct locals as [result ds].
    unfold func.select_symbol, bind.
    destruct (try_except_KeyError _ _ E w) as [[ds1 | e] w2];
      [| discriminate].
    destruct (for_in endpoints _ _ E w2) as [[temp | e] w3];
      [| discriminate].
    unfold ret. intros [= <- <-]. simpl. rewrite lookup_insert.
    destruct Hk as [[-> | Hk]%elem_of_cons | Hk].
    + right. by rewrite decide_True.
    + by left.
    + right. case_decide; [done | exact Hk].
Qed.

(** Every decorated body answers with a dictionary that has an entry for
    each symbol of the instance found in the data set. *)
Lemma decorated_response override func w response w' :
  decorated override func ->
  func E w = (Ok response, w') ->
  exists d, response = VDict d /\
    forall x, x ∈ Self.symbols (self w) ->
              is_Some (Self.data_set (self w) !! x) -> is_Some (d !! x).
Proof.
  destruct 1; intros Hrun.
  - revert Hrun. unfold func.get_all, bind, getattr, ret.
    intros [= <- <-]. eexists; split; [reflexivity |].
    intros x _ [e He]. rewrite lookup_fmap, He. done.
  - revert Hrun. unfold func.get_select_endpoints.
    destruct endpoints as [ep | [| ep eps]]; unfold bind at 1;
      cbv [ret raise]; try discriminate;
      (unfold bind at 1, getattr at 1; unfold bind;
       destruct (for_in _ _ _ E w) as [[locals | e] w2] eqn:Hloop;
         [| discriminate];
       intros [= <- <-]; eexists; (split; [reflexivity |]);
       intros x Hx _; apply (select_loop_keys _ _ _ _ _ _ Hloop);
       by left).
  - revert Hrun. unfold func.endpoint, bind at 1, getattr at 1.
    unfold bind at 1.
    destruct (dict_comprehension _ _ E w) as [[r | e] w2] eqn:Hcomp;
      [| discriminate].
    unfold ret. intros [= <- <-]. eexists; split; [reflexivity |].
    intros x _ Hx. by apply (dict_comprehension_keys _ _ _ _ _ _ Hcomp).
  - revert Hrun. unfold func.endpoint, bind at 1, getattr at 1.
    unfold bind at 1.
    destruct (dict_comprehension _ _ E w) as [[r | e] w2] eqn:Hcomp;
      [| discriminate].
    unfold ret. intros [= <- <-]. eexists; split; [reflexivity |].
    intros x _ Hx. by apply (dict_comprehension_keys _ _ _ _ _ _ Hcomp).
  - revert Hrun. unfold func.field, bind at 1, getattr at 1.
    unfold bind at 1.
    destruct (dict_comprehension _ _ E w) as [[r | e] w2] eqn:Hcomp;
      [| discriminate].
    unfold ret. intros [= <- <-]. eexists; split; [reflexivity |].
    intros x _ Hx. by apply (dict_comprehension_keys _ _ _ _ _ _ Hcomp).
  - revert Hrun. unfold func.field, bind at 1, getattr at 1.
    unfold bind at 1.
    destruct (dict_comprehension _ _ E w) as [[r | e] w2] eqn:Hcomp;
      [| discriminate].
    unfold ret. intros [= <- <-]. eexists; split; [reflexivity |].
    intros x _ Hx. by apply (dict_comprehension_keys _ _ _ _ _ _ Hcomp).
Qed.
End Responses.

Lemma map_result_length {A B} (f : A -> result B) l : forall l',
  map_result f l = Ok l' -> length l' = length l.
Proof.
  induction l as [| x l IH]; simpl; intros l' Hl'.
  - by injection Hl' as <-.
  - destruct (f x); [| discriminate].
    destruct (map_result f l) as [ys |]; [| discriminate].
    injection Hl' as <-. simpl. by rewrite (IH ys).
Qed.

Lemma chars_length s : length (chars s) = String.length s.
Proof. induction s as [| c s IH]; simpl; [reflexivity | by rewrite IH]. Qed.

Lemma elements_length symbols :
  length (StockReader.elements symbols) = StockReader.len symbols.
Proof.
  destruct symbols as [s | l]; simpl; [| reflexivity].
  by rewrite length_fmap, chars_length.
Qed.

(** ** The accessors *)

Section Accessors.
Import StockReader.

(** Every accessor of the class is a decorated body of the table
    [decorated]. *)
Lemma methods_decorated :
  Forall (fun method =>
            exists override func,
              decorated override func /\
              method = output_format override func)
         [get_all; get_quote; get_book; get_chart;
          get_open_close; get_previous; get_company;
          get_key_stats; get_peers; get_relevant; get_news;
          get_financials; get_earnings; get_dividends;
          get_splits; get_logo; get_price; get_delayed_quote;
          get_effective_spread; get_volume_by_venue; get_ohlc;
          get_time_series; get_company_name;
          get_primary_exchange; get_sector; get_open; get_close;
          get_years_high; get_years_low; get_ytd_change;
          get_volume; get_market_cap; get_beta;
          get_short_interest; get_short_ratio; get_latest_eps;
          get_shares_outstanding; get_float; get_eps_consensus]
  /\ forall endpoints,
       decorated (Some "json")
                 (func.get_select_endpoints endpoints) /\
       get_select_endpoints endpoints
         = output_format (Some "json")
             (func.get_select_endpoints endpoints).
Proof.
  split; [| intros endpoints; split; [constructor | reflexivity]].
  repeat (apply Forall_cons; split;
          [eexists _, _; split; [| reflexivity];
           constructor; set_solver |]).
  apply Forall_nil. done.
Qed.

Variable E : collaborators.

(** C6. On an instance constructed in structured mode, every decorated
    accessor whose body answers [response] finds in it a mapping keyed by
    the instance's symbols; constructed with exactly one symbol, the
    accessor returns that symbol's inner value, the outer mapping
    removed; constructed with more than one, it returns the mapping. *)
Theorem accessor_shape symbols displayPercent _range last fmt w0 w
    override func response w' :
  __init__ symbols displayPercent _range last fmt E w0 = (Ok tt, w) ->
  fmt <> "pandas" ->
  decorated override func ->
  func E w = (Ok response, w') ->
  exists d,
    response = VDict d /\
    (forall x, x ∈ Self.symbols (self w) -> is_Some (d !! x)) /\
    (len symbols = 1%nat ->
     exists x inner,
       Self.symbols (self w) = [x] /\ d !! x = Some inner /\
       output_format override func E w = (Ok inner, w')) /\
    ((1 < len symbols)%nat ->
     output_format override func E w = (Ok (VDict d), w')).
Proof.
  intros Hinit Hfmt Hdec Hfunc.
  apply init_outcome in Hinit
    as (ups & Hups & Hsym & Hkey & Hout & _ & Hdata).
  destruct (readonly_run _ _ _ _ _ (readonly_decorated _ _ Hdec) Hfunc)
    as [Hself _].
  destruct (decorated_response E _ _ _ _ _ Hdec Hfunc) as (d & -> & Hd).
  assert (Hkeys : forall x, x ∈ Self.symbols (self w) -> is_Some (d !! x)).
  { intros x Hx. apply Hd; [exact Hx |]. apply Hdata. by rewrite <- Hsym. }
  pose proof (output_format_structured override func E w w' _ Hfunc)
    as Hwrap.
  rewrite Hself, Hout, Hkey in Hwrap. specialize (Hwrap Hfmt).
  exists d. split; [reflexivity |]. split; [exact Hkeys |]. split.
  - intros Hlen. rewrite Hlen in Hwrap. simpl in Hwrap.
    assert (Hone : length ups = 1%nat)
      by (by rewrite (map_result_length _ _ _ Hups), elements_length).
    destruct ups as [| x [| ? ?]]; try discriminate.
    destruct (Hkeys x) as [inner Hinner]; [rewrite Hsym; by left |].
    exists x, inner. split; [exact Hsym |]. split; [exact Hinner |].
    rewrite Hwrap, Hsym. simpl. unfold getitem, dict_getitem.
    by rewrite Hinner.
  - intros Hlen. rewrite Hwrap.
    destruct (Nat.eqb_spec (len symbols) 1) as [Heq | _]; [lia |].
    reflexivity.
Qed.

(** C10. A decorated accessor leaves the instance, and so its data set,
    as it found it, and a second call returns what the first returned. *)
Theorem accessor_idempotent override func w :
  decorated override func ->
  self (output_format override func E w).2 = self w /\
  Self.data_set (self (output_format override func E w).2)
    = Self.data_set (self w) /\
  (output_format override func E (output_format override func E w).2).1
    = (output_format override func E w).1.
Proof.
  intros Hdec.
  pose proof (readonly_output_format override func
                (readonly_decorated _ _ Hdec)) as Hro.
  destruct (output_format override func E w) as [r w1] eqn:Hrun.
  destruct (readonly_run _ _ _ _ _ Hro Hrun) as [Hself Hagain].
  simpl. split; [exact Hself |]. split; [by rewrite Hself |].
  destruct w1 as [s1 ws1]. simpl in Hself. subst s1.
  apply Hagain.
Qed.
End Accessors.

Lemma accessor_shape_witness :
  exists d,
    VDict (<["AAPL" := VFloat (Qmake 17150 100)]> ∅) = VDict d /\
    (forall x, x ∈ Self.symbols (self Sample.share_json) ->
               is_Some (d !! x)) /\
    (StockReader.len (List [VStr "aapl"]) = 1%nat ->
     exists x inner,
       Self.symbols (self Sample.share_json) = [x] /\
       d !! x = Some inner /\
       StockReader.get_price Sample.aapl_server Sample.share_json
         = (Ok inner, Sample.share_json)) /\
    ((1 < StockReader.len (List [VStr "aapl"]))%nat ->
     StockReader.get_price Sample.aapl_server Sample.share_json
       = (Ok (VDict d), Sample.share_json)).
Proof.
  apply (accessor_shape Sample.aapl_server (List [VStr "aapl"])
           (VBool false) "1m" 10 "json" Sample.fresh Sample.share_json
           (Some "json") (StockReader.func.endpoint "price")).
  - vm_compute. reflexivity.
  - discriminate.
  - apply dec_endpoint_json. right; left.
  - vm_compute. reflexivity.
Defined.

Lemma accessor_idempotent_witness :
  self (StockReader.get_all Sample.server Sample.batch_json).2
    = self Sample.batch_json /\
  Self.data_set (self (StockReader.get_all Sample.server
                         Sample.batch_json).2)
    = Self.data_set (self Sample.batch_json) /\
  (StockReader.get_all Sample.server
     (StockReader.get_all Sample.server Sample.batch_json).2).1
    = (StockReader.get_all Sample.server Sample.batch_json).1.
Proof.
  apply (accessor_idempotent Sample.server (Some "json")
           StockReader.func.get_all Sample.batch_json).
  apply dec_get_all.
Defined.

(** ** Where the code departs from its documentation *)

(** C1. In tabular mode a JSON-only accessor warns but then returns [None]
    instead of the raw data its structured-mode twin returns: the same
    single-symbol instance yields the price in structured mode and [None]
    in tabular mode. *)
Theorem get_price_pandas_returns_None :
  Self.data_set (self Sample.share_pandas)
    = Self.data_set (self Sample.share_json) /\
  StockReader.get_price Sample.aapl_server Sample.share_json
    = (Ok (VFloat (Qmake 17150 100)), Sample.share_json) /\
  StockReader.get_price Sample.aapl_server Sample.share_pandas
    = (Ok VNone,
       World (self Sample.share_pandas)
             ["Pandas output not supported for this endpoint. Defaulting to JSON."]).
Proof. split; [| split]; vm_compute; reflexivity. Qed.

(** C4. On an instance whose data set lacks one of its symbols,
    [get_select_endpoints] raises nothing: TSLA, absent from the data set,
    is answered with the entry found for AAPL. *)
Theorem get_select_endpoints_stale_symbol :
  "TSLA" ∈ Self.symbols (self Sample.stale) /\
  Self.data_set (self Sample.stale) !! "TSLA" = None /\
  (StockReader.get_select_endpoints (Str "quote") Sample.aapl_server
                                    Sample.stale).1
    = Ok (VDict (<["AAPL" := VDict (<["quote" := Sample.quote_aapl]> ∅)]>
                   (<["TSLA" := VDict (<["quote" := Sample.quote_aapl]> ∅)]>
                      ∅))).
Proof.
  split; [| split].
  - replace (Self.symbols (self Sample.stale)) with ["AAPL"; "TSLA"]
      by (vm_compute; reflexivity).
    right; left.
  - vm_compute. reflexivity.
  - vm_compute. reflexivity.
Qed.

Section NoSymbolError.
Import StockReader.

Variable E : collaborators.

Lemma select_endpoint_raises ds temp endpoint w e w' :
  func.select_endpoint ds temp endpoint E w = (Raise e, w') ->
  e = UnboundLocalError "ds" \/ e = IEXEndpointError endpoint.
Proof.
  unfold func.select_endpoint, bind, try_except_KeyError.
  destruct ds as [entry |]; cbv [raise lift dict_getitem ret].
  - destruct (entry !! endpoint); [discriminate |].
    intros [= <- <-]. by right.
  - intros [= <- <-]. by left.
Qed.

Lemma select_endpoints_raises ds endpoints : forall temp w e w',
  for_in endpoints (func.select_endpoint ds) temp E w = (Raise e, w') ->
  forall x, e <> IEXSymbolError x.
Proof.
  induction endpoints as [| ep eps IH]; intros temp w e w' Hrun x.
  - discriminate.
  - simpl in Hrun. unfold bind at 1 in Hrun.
    destruct (func.select_endpoint ds temp ep E w)
      as [[temp' | e'] w1] eqn:Hstep.
    + by apply (IH _ _ _ _ Hrun).
    + injection Hrun as <- <-.
      apply select_endpoint_raises in Hstep as [-> | ->]; discriminate.
Qed.

Lemma select_symbol_raises endpoints locals symbol w e w' :
  func.select_symbol endpoints locals symbol E w = (Raise e, w') ->
  forall x, e <> IEXSymbolError x.
Proof.
  destruct locals as [result ds]. unfold func.select_symbol, bind at 1.
  assert (Htry : exists ds1,
             try_except_KeyError
               (do data_set <- getattr Self.data_set;
                do entry <- lift (dict_getitem data_set symbol);
                ret (Some entry)) (ret ds) E w = (Ok ds1, w)).
  { cbv [try_except_KeyError bind getattr lift dict_getitem ret].
    destruct (Self.data_set (self w) !! symbol); eauto. }
  destruct Htry as [ds1 ->]. unfold bind.
  destruct (for_in endpoints _ _ E w) as [[temp | e'] w1] eqn:Hloop.
  - discriminate.
  - intros [= <- <-]. by apply (select_endpoints_raises _ _ _ _ _ _ Hloop).
Qed.

Lemma select_symbols_raises endpoints symbols : forall locals w e w',
  for_in symbols (func.select_symbol endpoints) locals E w = (Raise e, w') ->
  forall x, e <> IEXSymbolError x.
Proof.
  induction symbols as [| s l IH]; intros locals w e w' Hrun x.
  - discriminate.
  - simpl in Hrun. unfold bind at 1 in Hrun.
    destruct (func.select_symbol endpoints locals s E w)
      as [[locals' | e'] w1] eqn:Hstep.
    + by apply (IH _ _ _ _ Hrun).
    + injection Hrun as <- <-.
      by apply (select_symbol_raises _ _ _ _ _ _ Hstep).
Qed.

(** On no instance and for no argument does [get_select_endpoints] raise
    the symbol error. *)
Lemma get_select_endpoints_never_symbol_error endpoints w x :
  (get_select_endpoints endpoints E w).1 <> Raise (IEXSymbolError x).
Proof.
  unfold get_select_endpoints.
  destruct (func.get_select_endpoints endpoints E w) as [[response | e] w1]
    eqn:Hfunc.
  - destruct (decorated_response E _ _ _ _ _
                (dec_get_select_endpoints endpoints) Hfunc)
      as (d & -> & _).
    unfold output_format, bind at 1. rewrite Hfunc.
    cbv [bind getattr warn ret lift getitem dict_getitem].
    destruct (String.eqb _ "pandas"); [discriminate |].
    destruct (String.eqb _ "share"); [| discriminate].
    destruct (Self.symbols (self w1)) as [| symbol ?]; simpl;
      [discriminate |].
    destruct (d !! symbol); discriminate.
  - rewrite (output_format_raise _ _ _ _ _ _ Hfunc). simpl.
    revert Hfunc. unfold func.get_select_endpoints.
    destruct endpoints as [ep | [| ep eps]]; unfold bind at 1;
      cbv [ret raise]; try (intros [= <- <-]; discriminate).
    all: unfold bind at 1, getattr at 1; unfold bind.
    all: destruct (for_in _ _ _ E w) as [[locals | e'] w2] eqn:Hloop;
         [discriminate |].
    all: intros [= <- <-] Heq; injection Heq as Heq;
       by apply (select_symbols_raises _ _ _ _ _ _ Hloop x).
Qed.
End NoSymbolError.

(** * Further properties *)

(** ** More on [refresh] *)

Section RefreshMore.
Import StockReader.

Variable E : collaborators.

(** The loop of [refresh], whatever its outcome, only rewrites entries of
    symbols it was given, and neither adds nor removes a symbol. *)
Lemma refresh_loop_frame data2 (l : list string) : forall s ws r w',
  for_in l (fun _ symbol => refresh_symbol data2 symbol) tt E (World s ws)
    = (r, w') ->
  exists cur,
    w' = World (Self.set_data_set cur s) ws /\
    dom cur = dom (Self.data_set s) /\
    forall x, x ∉ l -> cur !! x = Self.data_set s !! x.
Proof.
  induction l as [| y l IH]; intros s ws r w' Hrun.
  { simpl in Hrun. unfold ret in Hrun. injection Hrun as <- <-.
    exists (Self.data_set s). by rewrite set_data_set_same. }
  simpl in Hrun. unfold bind at 1 in Hrun.
  rewrite refresh_symbol_run in Hrun.
  destruct (Self.data_set s !! y) as [entry |] eqn:Hentry.
  2: { injection Hrun as <- <-. exists (Self.data_set s).
       by rewrite set_data_set_same. }
  destruct (data2 !! y) as [extra |] eqn:Hextra.
  2: { injection Hrun as <- <-. exists (Self.data_set s).
       by rewrite set_data_set_same. }
  apply IH in Hrun as (cur & -> & Hdom & Hrest). simpl in *.
  exists cur. split; [reflexivity |]. split.
  - rewrite Hdom. apply dom_insert_lookup_L. by rewrite Hentry.
  - intros x Hx. rewrite elem_of_cons in Hx.
    rewrite Hrest by tauto. apply lookup_insert_ne. intros ->. tauto.
Qed.

(** The three ways [refresh] can run, by the answers to its requests. *)
Lemma refresh_first_request_fails s ws e :
  GET E url (params (Self.set_endpoints ALL_ENDPOINTS_STR_1 s)) = Raise e ->
  refresh E (World s ws)
    = (Raise e, World (Self.set_endpoints ALL_ENDPOINTS_STR_1 s) ws).
Proof.
  intros H1. unfold refresh.
  cbv [bind setattr fetch getattr]. cbn [self warnings].
  by rewrite H1.
Qed.

Lemma refresh_second_request_fails s ws d1 e :
  GET E url (params (Self.set_endpoints ALL_ENDPOINTS_STR_1 s)) = Ok d1 ->
  GET E url (params (Self.set_endpoints ALL_ENDPOINTS_STR_2 s)) = Raise e ->
  refresh E (World s ws)
    = (Raise e,
       World (Self.set_data_set d1
                (Self.set_endpoints ALL_ENDPOINTS_STR_2 s)) ws).
Proof.
  intros H1 H2. unfold refresh.
  cbv [bind setattr fetch getattr]. cbn [self warnings].
  rewrite H1.
  change (params (Self.set_endpoints ALL_ENDPOINTS_STR_2
                    (Self.set_data_set d1
                       (Self.set_endpoints ALL_ENDPOINTS_STR_1 s))))
    with (params (Self.set_endpoints ALL_ENDPOINTS_STR_2 s)).
  by rewrite H2.
Qed.

(** Whatever its outcome, [refresh] rewrites [endpoints] and [data_set]
    only, and issues no warning. *)
Lemma refresh_world s ws :
  exists endpoints data_set,
    (refresh E (World s ws)).2
      = World (Self.set_data_set data_set (Self.set_endpoints endpoints s))
              ws.
Proof.
  destruct (GET E url (params (Self.set_endpoints ALL_ENDPOINTS_STR_1 s)))
    as [d1 | e1] eqn:H1.
  - destruct (GET E url (params (Self.set_endpoints ALL_ENDPOINTS_STR_2 s)))
      as [d2 | e2] eqn:H2.
    + rewrite (refresh_unfold E s ws d1 d2 H1 H2).
      destruct (for_in _ _ _ _ _) as [r w'] eqn:Hrun.
      apply refresh_loop_frame in Hrun as (cur & -> & _).
      by exists ALL_ENDPOINTS_STR_2, cur.
    + rewrite (refresh_second_request_fails s ws d1 e2 H1 H2).
      by exists ALL_ENDPOINTS_STR_2, d1.
  - rewrite (refresh_first_request_fails s ws e1 H1).
    exists ALL_ENDPOINTS_STR_1, (Self.data_set s). simpl.
    by destruct s.
Qed.

(** X1. Whatever its outcome, [refresh] leaves the symbols, the key, the
    output format and the three options of the instance as they were, and
    issues no warning. *)
Theorem refresh_preserves_configuration w :
  let w' := (refresh E w).2 in
  Self.symbols (self w') = Self.symbols (self w) /\
  Self.key (self w') = Self.key (self w) /\
  Self.output_format (self w') = Self.output_format (self w) /\
  Self.displayPercent (self w') = Self.displayPercent (self w) /\
  Self.range (self w') = Self.range (self w) /\
  Self.last (self w') = Self.last (self w) /\
  warnings w' = warnings w.
Proof.
  destruct w as [s ws]. simpl.
  destruct (refresh_world s ws) as (endpoints & data_set & ->).
  simpl. tauto.
Qed.

(** X2. A transport failure is passed on unchanged.  When the first request
    fails the data set is the one held before; when the second fails the
    data set is the first response as received, nothing merged. *)
Theorem refresh_transport_failure s ws :
  (forall e,
     GET E url (params (Self.set_endpoints ALL_ENDPOINTS_STR_1 s)) = Raise e ->
     (refresh E (World s ws)).1 = Raise e /\
     Self.data_set (self (refresh E (World s ws)).2) = Self.data_set s) /\
  (forall d1 e,
     GET E url (params (Self.set_endpoints ALL_ENDPOINTS_STR_1 s)) = Ok d1 ->
     GET E url (params (Self.set_endpoints ALL_ENDPOINTS_STR_2 s)) = Raise e ->
     (refresh E (World s ws)).1 = Raise e /\
     Self.data_set (self (refresh E (World s ws)).2) = d1).
Proof.
  split.
  - intros e H1. by rewrite (refresh_first_request_fails s ws e H1).
  - intros d1 e H1 H2.
    by rewrite (refresh_second_request_fails s ws d1 e H1 H2).
Qed.

(** X3. Once both requests are answered, and whether or not [refresh] then
    succeeds, the data set holds exactly the symbols of the first response,
    and a symbol that was not requested keeps its first-response entry:
    nothing of the second response reaches it. *)
Theorem refresh_keeps_first_response_symbols s ws d1 d2 :
  GET E url (params (Self.set_endpoints ALL_ENDPOINTS_STR_1 s)) = Ok d1 ->
  GET E url (params (Self.set_endpoints ALL_ENDPOINTS_STR_2 s)) = Ok d2 ->
  dom (Self.data_set (self (refresh E (World s ws)).2)) = dom d1 /\
  forall x, x ∉ Self.symbols s ->
    Self.data_set (self (refresh E (World s ws)).2) !! x = d1 !! x.
Proof.
  intros H1 H2. rewrite (refresh_unfold E s ws d1 d2 H1 H2).
  destruct (for_in _ _ _ _ _) as [r w'] eqn:Hrun.
  apply refresh_loop_frame in Hrun as (cur & -> & Hdom & Hrest).
  simpl in *. split; [exact Hdom | exact Hrest].
Qed.

(** X4. Against an unchanged server a second [refresh] changes nothing: it
    has the outcome of the first and leaves the world the first left. *)
Theorem refresh_idempotent w :
  refresh E (refresh E w).2 = refresh E w.
Proof.
  destruct w as [s ws].
  destruct (GET E url (params (Self.set_endpoints ALL_ENDPOINTS_STR_1 s)))
    as [d1 | e1] eqn:H1.
  - destruct (GET E url (params (Self.set_endpoints ALL_ENDPOINTS_STR_2 s)))
      as [d2 | e2] eqn:H2.
    + rewrite (refresh_unfold E s ws d1 d2 H1 H2).
      destruct (for_in _ _ _ _ _) as [r w'] eqn:Hrun.
      pose proof Hrun as Hframe.
      apply refresh_loop_frame in Hframe as (cur & -> & _). simpl.
      set (s' := Self.set_data_set cur _).
      rewrite (refresh_unfold E s' ws d1 d2); [exact Hrun | exact H1 | exact H2].
    + rewrite (refresh_second_request_fails s ws d1 e2 H1 H2). simpl.
      set (s' := Self.set_data_set d1 _).
      by rewrite (refresh_second_request_fails s' ws d1 e2);
        [| exact H1 | exact H2].
  - rewrite (refresh_first_request_fails s ws e1 H1). simpl.
    set (s' := Self.set_endpoints _ s).
    by rewrite (refresh_first_request_fails s' ws e1); [| exact H1].
Qed.

End RefreshMore.

Lemma refresh_transport_failure_witness :
  ((StockReader.refresh Fixture.down_server Sample.batch_json).1
     = Raise IEXQueryError /\
   Self.data_set (self (StockReader.refresh Fixture.down_server
                          Sample.batch_json).2)
     = Self.data_set (self Sample.batch_json)) /\
  ((StockReader.refresh Fixture.half_server Sample.batch_json).1
     = Raise IEXQueryError /\
   Self.data_set (self (StockReader.refresh Fixture.half_server
                          Sample.batch_json).2)
     = Sample.group1).
Proof.
  split.
  - apply (proj1 (refresh_transport_failure Fixture.down_server
                    (self Sample.batch_json) []) IEXQueryError).
    reflexivity.
  - apply (proj2 (refresh_transport_failure Fixture.half_server
                    (self Sample.batch_json) []) Sample.group1 IEXQueryError);
      vm_compute; reflexivity.
Defined.

Lemma refresh_keeps_first_response_symbols_witness :
  dom (Self.data_set (self (StockReader.refresh Sample.server
                              (World (self Fixture.overfull) [])).2))
    = dom Sample.group1 /\
  forall x, x ∉ Self.symbols (self Fixture.overfull) ->
    Self.data_set (self (StockReader.refresh Sample.server
                           (World (self Fixture.overfull) [])).2) !! x
      = Sample.group1 !! x.
Proof.
  apply (refresh_keeps_first_response_symbols Sample.server
           (self Fixture.overfull) [] Sample.group1 Sample.group2);
    vm_compute; reflexivity.
Defined.

(** ** More on construction *)

Section InitMore.
Import StockReader.

Variable E : collaborators.
Variables (symbols : str_or_list value) (displayPercent : value)
          (_range : string) (last : Z) (fmt : string).

(** X5. A construction that succeeds was given a boolean displayPercent, a
    range of [_RANGE_VALUES] and a last between 1 and 50, and the instance
    stores the three as given. *)
Theorem init_options_valid w0 w' :
  __init__ symbols displayPercent _range last fmt E w0 = (Ok tt, w') ->
  (exists b, displayPercent = VBool b) /\
  _range ∈ _RANGE_VALUES /\
  (1 <= last <= 50)%Z /\
  Self.displayPercent (self w') = displayPercent /\
  Self.range (self w') = _range /\
  Self.last (self w') = last.
Proof.
  unfold __init__. unfold bind at 1, lift at 1.
  destruct (map_result value_upper (elements symbols)) as [ups |];
    [| discriminate].
  cbv [bind setattr getattr]. cbn [self warnings].
  destruct (Nat.eqb (len symbols) 1); cbn [self warnings];
    (destruct displayPercent; cbv [raise]; try discriminate;
     case_bool_decide; simpl; [| discriminate];
     destruct (Z.ltb_spec 50 last); simpl; [discriminate |];
     destruct (Z.ltb_spec last 1); simpl; [discriminate |];
     cbv [ret]; intros Hrun;
     apply refresh_success in Hrun as (d1 & d2 & cur & _ & _ & -> & _);
     simpl; repeat split; eauto; lia).
Qed.

(** X6. On a constructed instance the key is "share" exactly when one
    symbol is stored, and "batch" otherwise. *)
Theorem init_key_counts_symbols w0 w' :
  __init__ symbols displayPercent _range last fmt E w0 = (Ok tt, w') ->
  (length (Self.symbols (self w')) = 1%nat /\ Self.key (self w') = "share")
  \/
  (length (Self.symbols (self w')) <> 1%nat /\ Self.key (self w') = "batch").
Proof.
  intros Hrun. apply init_outcome in Hrun as (ups & Hups & -> & -> & _).
  rewrite (map_result_length _ _ _ Hups), elements_length.
  destruct (Nat.eqb_spec (len symbols) 1); [by left | by right].
Qed.

(** X7. The order of the checks.  An element that is not a string stops
    construction with an attribute error; then a displayPercent that is not
    a boolean gives the type error whatever the range and last are; then a
    range outside [_RANGE_VALUES] gives a value error whatever last is;
    then a last outside 1..50 gives a value error.  In each case the data
    set is untouched: nothing was fetched. *)
Theorem init_rejects w0 :
  let run := __init__ symbols displayPercent _range last fmt E w0 in
  (forall e, map_result value_upper (elements symbols) = Raise e ->
     run = (Raise e, w0)) /\
  (forall ups, map_result value_upper (elements symbols) = Ok ups ->
     ((forall b, displayPercent <> VBool b) ->
        run.1 = Raise (TypeError "displayPercent must be a boolean value")) /\
     ((exists b, displayPercent = VBool b) -> _range ∉ _RANGE_VALUES ->
        run.1 = Raise (ValueError "Invalid chart range.")) /\
     ((exists b, displayPercent = VBool b) -> _range ∈ _RANGE_VALUES ->
      (last < 1 \/ 50 < last)%Z ->
        run.1 = Raise (ValueError
          "Invalid news last range. Enter a value between 1 and 50.")) /\
     (~ ((exists b, displayPercent = VBool b) /\ _range ∈ _RANGE_VALUES /\
         (1 <= last <= 50)%Z) ->
        Self.data_set (self run.2) = Self.data_set (self w0))).
Proof.
  intros run. subst run. unfold __init__. unfold bind at 1, lift at 1.
  split.
  { intros e ->. reflexivity. }
  intros ups ->.
  cbv [bind setattr getattr raise lift]. cbn [self warnings].
  destruct (Nat.eqb (len symbols) 1); cbn [self warnings];
    destruct displayPercent as [| b | | | | | |];
    (split; [| split; [| split]]);
    try (intros; reflexivity);
    try (by intros [? [=]]);
    try (intros Hnot; exfalso; by eapply Hnot).
  all: try (intros _ Hnotin; by rewrite bool_decide_eq_false_2).
  all: try (intros _ Hin Hlast;
            rewrite bool_decide_eq_true_2 by done; simpl;
            destruct (Z.ltb_spec 50 last); simpl; [reflexivity |];
            destruct (Z.ltb_spec last 1); simpl; [reflexivity | lia]).
  all: intros Hbad; simpl;
       destruct (bool_decide (_range ∈ _RANGE_VALUES)) eqn:Hin; simpl;
       try reflexivity;
       destruct (Z.ltb_spec 50 last); simpl; try reflexivity;
       destruct (Z.ltb_spec last 1); simpl; try reflexivity;
       exfalso; apply Hbad; apply bool_decide_eq_true_1 in Hin;
       (split; [by eexists | split; [done | lia]]).
Qed.

End InitMore.

Lemma init_options_valid_witness :
  (exists b, VBool false = VBool b) /\
  "1m" ∈ StockReader._RANGE_VALUES /\
  (1 <= 10 <= 50)%Z /\
  Self.displayPercent (self Sample.batch_json) = VBool false /\
  Self.range (self Sample.batch_json) = "1m" /\
  Self.last (self Sample.batch_json) = 10%Z.
Proof.
  apply (init_options_valid Sample.server
           (List [VStr "aapl"; VStr "tsla"]) (VBool false) "1m" 10 "json"
           Sample.fresh Sample.batch_json).
  vm_compute. reflexivity.
Defined.

Lemma init_key_counts_symbols_witness :
  (length (Self.symbols (self Sample.share_json)) = 1%nat /\
   Self.key (self Sample.share_json) = "share") \/
  (length (Self.symbols (self Sample.share_json)) <> 1%nat /\
   Self.key (self Sample.share_json) = "batch").
Proof.
  apply (init_key_counts_symbols Sample.aapl_server
           (List [VStr "aapl"]) (VBool false) "1m" 10 "json"
           Sample.fresh Sample.share_json).
  vm_compute. reflexivity.
Defined.

Lemma init_rejects_witness :
  StockReader.__init__ (List [VStr "aapl"; VInt 3]) (VBool false) "1m" 10
                       "json" Sample.server Sample.fresh
    = (Raise (AttributeError "upper"), Sample.fresh) /\
  (StockReader.__init__ (List [VStr "aapl"]) (VInt 4) "1yy" 555 "json"
                        Sample.server Sample.fresh).1
    = Raise (TypeError "displayPercent must be a boolean value") /\
  (StockReader.__init__ (List [VStr "aapl"]) (VBool true) "1yy" 555 "json"
                        Sample.server Sample.fresh).1
    = Raise (ValueError "Invalid chart range.") /\
  (StockReader.__init__ (List [VStr "aapl"]) (VBool true) "5y" 555 "json"
                        Sample.server Sample.fresh).1
    = Raise (ValueError
               "Invalid news last range. Enter a value between 1 and 50.") /\
  Self.data_set
    (self (StockReader.__init__ (List [VStr "aapl"]) (VBool true) "5y" 555
                                "json" Sample.server Sample.fresh).2)
    = Self.data_set (self Sample.fresh).
Proof.
  split; [| split; [| split; [| split]]].
  - apply (proj1 (init_rejects Sample.server (List [VStr "aapl"; VInt 3])
                    (VBool false) "1m" 10 "json" Sample.fresh)).
    reflexivity.
  - apply (proj2 (init_rejects Sample.server (List [VStr "aapl"])
                    (VInt 4) "1yy" 555 "json" Sample.fresh) ["AAPL"]);
      [reflexivity | discriminate].
  - apply (proj2 (init_rejects Sample.server (List [VStr "aapl"])
                    (VBool true) "1yy" 555 "json" Sample.fresh) ["AAPL"]);
      [reflexivity | by eexists |].
    intros Hin.
    repeat (apply elem_of_cons in Hin as [Hin | Hin]; [discriminate |]).
    inversion Hin.
  - apply (proj2 (init_rejects Sample.server (List [VStr "aapl"])
                    (VBool true) "5y" 555 "json" Sample.fresh) ["AAPL"]);
      [reflexivity | by eexists | | lia].
    right; left.
  - apply (proj2 (init_rejects Sample.server (List [VStr "aapl"])
                    (VBool true) "5y" 555 "json" Sample.fresh) ["AAPL"]);
      [reflexivity |].
    intros (_ & _ & Hlast). lia.
Defined.

(** ** Dictionary comprehensions, computed *)

Section Comprehension.
Variables (f : string -> M value) (E : collaborators) (w : world).

(** When [f] answers on every key without touching the world, the loop
    inserts the answers. *)
Lemma comprehension_loop_ok (g : string -> value) (l : list string) :
  (forall k, k ∈ l -> f k E w = (Ok (g k), w)) ->
  forall acc : gmap string value, exists r,
    for_in l (fun acc k => do v <- f k; ret (<[k := v]> acc)) acc E w
      = (Ok r, w) /\
    forall k, r !! k = if decide (k ∈ l) then Some (g k) else acc !! k.
Proof.
  induction l as [| x l IH]; intros Hf acc.
  - exists acc. split; [reflexivity |]. intros k.
    by rewrite decide_False by apply not_elem_of_nil.
  - destruct (IH (fun k Hk => Hf k (list_elem_of_further _ _ _ Hk))
                (<[x := g x]> acc)) as (r & Hrun & Hr).
    exists r. split.
    + cbn [for_in]. unfold bind at 1, bind at 1, ret at 1.
      rewrite (Hf x) by left. exact Hrun.
    + intros k. rewrite Hr. rewrite lookup_insert.
      destruct (decide (k ∈ l)) as [Hk | Hk].
      * by rewrite decide_True by (by right).
      * destruct (decide (x = k)) as [-> | Hne].
        -- by rewrite decide_True by left.
        -- rewrite decide_False; [done |].
           intros [-> | ?]%elem_of_cons; done.
Qed.

(** When every key is either answered or refused with the same exception,
    and some key is refused, the loop raises that exception. *)
Lemma comprehension_loop_raise (g : string -> value) e (l : list string) :
  (forall k, k ∈ l ->
     f k E w = (Ok (g k), w) \/ f k E w = (Raise e, w)) ->
  (exists k, k ∈ l /\ f k E w = (Raise e, w)) ->
  forall acc : gmap string value,
    for_in l (fun acc k => do v <- f k; ret (<[k := v]> acc)) acc E w
      = (Raise e, w).
Proof.
  induction l as [| x l IH]; intros Hf (k & Hk & Hbad) acc.
  - inversion Hk.
  - cbn [for_in]. unfold bind at 1, bind at 1, ret at 1.
    destruct (Hf x) as [Hx | Hx]; [by left | |]; rewrite Hx; [| reflexivity].
    apply IH.
    + intros k' Hk'. apply Hf. by right.
    + apply elem_of_cons in Hk as [-> | Hk]; [congruence | eauto].
Qed.

Lemma dict_comprehension_ok {V} (d : gmap string V) (g : string -> V -> value) :
  (forall k v, d !! k = Some v -> f k E w = (Ok (g k v), w)) ->
  dict_comprehension d f E w
    = (Ok (map_imap (fun k v => Some (g k v)) d), w).
Proof.
  intros Hf. unfold dict_comprehension.
  destruct (comprehension_loop_ok
              (fun k => match d !! k with Some v => g k v | None => VNone end)
              (map_to_list d).*1) with (acc := (∅ : gmap string value))
    as (r & Hrun & Hr).
  - intros k [[k' v] [-> Hkv]]%list_elem_of_fmap. simpl.
    apply elem_of_map_to_list in Hkv. rewrite Hkv. by apply Hf.
  - rewrite Hrun. f_equal. f_equal. apply map_eq. intros k.
    rewrite Hr, map_lookup_imap.
    destruct (d !! k) as [v |] eqn:Hk; simpl.
    + rewrite decide_True; [done |].
      apply list_elem_of_fmap. exists (k, v). split; [done |].
      by apply elem_of_map_to_list.
    + rewrite decide_False; [done |].
      intros [[k' v] [-> Hkv]]%list_elem_of_fmap.
      apply elem_of_map_to_list in Hkv. simpl in Hk. congruence.
Qed.

Lemma dict_comprehension_raise {V} (d : gmap string V)
    (g : string -> V -> value) e :
  (forall k v, d !! k = Some v ->
     f k E w = (Ok (g k v), w) \/ f k E w = (Raise e, w)) ->
  (exists k v, d !! k = Some v /\ f k E w = (Raise e, w)) ->
  dict_comprehension d f E w = (Raise e, w).
Proof.
  intros Hf (k & v & Hk & Hbad). unfold dict_comprehension.
  apply (comprehension_loop_raise
           (fun k => match d !! k with Some v => g k v | None => VNone end)).
  - intros k' [[k'' v'] [-> Hkv]]%list_elem_of_fmap. simpl.
    apply elem_of_map_to_list in Hkv. rewrite Hkv. by apply Hf.
  - exists k. split; [| exact Hbad].
    apply list_elem_of_fmap. exists (k, v). split; [done |].
    by apply elem_of_map_to_list.
Qed.

End Comprehension.

(** ** The endpoint accessors, computed *)

Section Endpoints.
Import StockReader.

Variables (E : collaborators) (w : world) (name : string).

Lemma endpoint_step symbol entry :
  Self.data_set (self w) !! symbol = Some entry ->
  (do data_set <- getattr Self.data_set;
   do entry <- lift (dict_getitem data_set symbol);
   lift (dict_getitem entry name)) E w
    = (dict_getitem entry name, w).
Proof.
  intros Hentry. cbv [bind getattr lift]. unfold dict_getitem at 1.
  by rewrite Hentry.
Qed.

(** The body of an endpoint method on a data set all of whose entries hold
    the endpoint. *)
Lemma endpoint_body_ok :
  (forall symbol entry, Self.data_set (self w) !! symbol = Some entry ->
                        is_Some (entry !! name)) ->
  func.endpoint name E w
    = (Ok (VDict (omap (fun entry => entry !! name)
                       (Self.data_set (self w)))), w).
Proof.
  intros Hall. unfold func.endpoint, bind at 1, getattr at 1.
  unfold bind at 1.
  rewrite (dict_comprehension_ok _ E w (Self.data_set (self w))
             (fun _ entry => default VNone (entry !! name))).
  - unfold ret. f_equal. f_equal. f_equal. apply map_eq. intros k.
    rewrite map_lookup_imap, lookup_omap.
    destruct (Self.data_set (self w) !! k) as [entry |] eqn:Hk; [| done].
    simpl.
    by destruct (Hall k entry Hk) as [v ->].
  - intros k entry Hk. rewrite (endpoint_step k entry Hk).
    unfold dict_getitem. by destruct (Hall k entry Hk) as [v ->].
Qed.

(** The body of an endpoint method on a data set one of whose entries
    lacks the endpoint. *)
Lemma endpoint_body_missing :
  (exists symbol entry,
     Self.data_set (self w) !! symbol = Some entry /\ entry !! name = None) ->
  func.endpoint name E w = (Raise (KeyError (VStr name)), w).
Proof.
  intros (symbol & entry & Hentry & Hnone).
  unfold func.endpoint, bind at 1, getattr at 1.
  unfold bind at 1.
  rewrite (dict_comprehension_raise _ E w (Self.data_set (self w))
             (fun _ entry => default VNone (entry !! name))
             (KeyError (VStr name))); [reflexivity | |].
  - intros k entry' Hk. rewrite (endpoint_step k entry' Hk).
    unfold dict_getitem. destruct (entry' !! name); [by left | by right].
  - exists symbol, entry. split; [exact Hentry |].
    rewrite (endpoint_step symbol entry Hentry).
    unfold dict_getitem. by rewrite Hnone.
Qed.

End Endpoints.

Section EndpointAccessors.
Import StockReader.

Variables (E : collaborators) (w : world) (name : string).

(** X8. In structured mode, on a data set all of whose entries hold the
    endpoint, an endpoint accessor of a batch instance returns the endpoint
    value of every symbol in the data set, and that of a single-symbol
    instance returns the endpoint value of its symbol. *)
Theorem endpoint_accessor_structured override :
  Self.output_format (self w) <> "pandas" ->
  (forall symbol entry, Self.data_set (self w) !! symbol = Some entry ->
                        is_Some (entry !! name)) ->
  (Self.key (self w) <> "share" ->
   output_format override (func.endpoint name) E w
     = (Ok (VDict (omap (fun entry => entry !! name)
                        (Self.data_set (self w)))), w)) /\
  (forall symbol rest entry v,
     Self.key (self w) = "share" ->
     Self.symbols (self w) = symbol :: rest ->
     Self.data_set (self w) !! symbol = Some entry ->
     entry !! name = Some v ->
     output_format override (func.endpoint name) E w = (Ok v, w)).
Proof.
  intros Hfmt Hall.
  pose proof (output_format_structured override _ E w w _
                (endpoint_body_ok E w name Hall) Hfmt) as Hwrap.
  split.
  - intros Hkey. rewrite Hwrap.
    by destruct (String.eqb_spec (Self.key (self w)) "share").
  - intros symbol rest entry v Hkey Hsym Hentry Hv.
    rewrite Hwrap, Hkey, Hsym. simpl.
    unfold getitem, dict_getitem. rewrite lookup_omap, Hentry. simpl.
    by rewrite Hv.
Qed.

(** X9. If any entry of the data set lacks the endpoint, be it the entry of
    a symbol the instance never asked for, the endpoint accessor fails with
    a key error for the endpoint name, in every output mode. *)
Theorem endpoint_accessor_missing override :
  (exists symbol entry,
     Self.data_set (self w) !! symbol = Some entry /\ entry !! name = None) ->
  output_format override (func.endpoint name) E w
    = (Raise (KeyError (VStr name)), w).
Proof.
  intros Hmissing. apply output_format_raise.
  by apply endpoint_body_missing.
Qed.

(** X10. In tabular mode an endpoint accessor without override hands the
    whole symbol-keyed mapping to the DataFrame constructor, for a
    single-symbol instance too, and issues no warning. *)
Theorem endpoint_accessor_tabular :
  Self.output_format (self w) = "pandas" ->
  (forall symbol entry, Self.data_set (self w) !! symbol = Some entry ->
                        is_Some (entry !! name)) ->
  output_format None (func.endpoint name) E w
    = (pd_DataFrame E (VDict (omap (fun entry => entry !! name)
                                   (Self.data_set (self w)))), w).
Proof.
  intros Hfmt Hall. unfold output_format, bind at 1.
  rewrite (endpoint_body_ok E w name Hall).
  cbv [bind getattr DataFrame ret]. rewrite Hfmt. simpl.
  by destruct (pd_DataFrame E _).
Qed.

(** X11. In structured mode a field accessor built on the endpoint [name]
    returns, for a batch instance, the field of every symbol in the data
    set, and for a single-symbol instance the field of its symbol. *)
Theorem field_accessor_structured field :
  Self.output_format (self w) <> "pandas" ->
  (forall symbol entry, Self.data_set (self w) !! symbol = Some entry ->
                        is_Some (entry !! name)) ->
  (Self.key (self w) = "batch" ->
   (forall symbol entry, Self.data_set (self w) !! symbol = Some entry ->
                         is_Some (field_of name field entry)) ->
   output_format (Some "json")
     (func.field (output_format None (func.endpoint name)) field) E w
     = (Ok (VDict (omap (field_of name field) (Self.data_set (self w)))), w))
  /\
  (forall symbol rest entry v,
     Self.key (self w) = "share" ->
     Self.symbols (self w) = symbol :: rest ->
     Self.data_set (self w) !! symbol = Some entry ->
     field_of name field entry = Some v ->
     output_format (Some "json")
       (func.field (output_format None (func.endpoint name)) field) E w
       = (Ok v, w)).
Proof.
  intros Hfmt Hall.
  pose proof (output_format_structured None _ E w w _
                (endpoint_body_ok E w name Hall) Hfmt) as Hgetter.
  split.
  - intros Hkey Hfield.
    assert (Hbody :
      func.field (output_format None (func.endpoint name)) field E w
        = (Ok (VDict (omap (field_of name field) (Self.data_set (self w)))),
           w)).
    { unfold func.field, bind at 1, getattr at 1. unfold bind at 1.
      rewrite (dict_comprehension_ok _ E w (Self.data_set (self w))
                 (fun _ entry => default VNone (field_of name field entry))).
      - unfold ret. f_equal. f_equal. f_equal. apply map_eq. intros k.
        rewrite map_lookup_imap, !lookup_omap.
        destruct (Self.data_set (self w) !! k) as [entry |] eqn:Hk; [| done].
        simpl. by destruct (Hfield k entry Hk) as [v ->].
      - intros k entry Hk. unfold bind at 1, getattr at 1.
        rewrite Hkey. simpl. unfold bind at 1. rewrite Hgetter, Hkey. simpl.
        unfold bind. unfold getitem at 1, dict_getitem.
        rewrite lookup_omap, Hk. simpl.
        destruct (Hfield k entry Hk) as [v Hv]. rewrite Hv. simpl.
        unfold field_of in Hv.
        destruct (entry !! name) as [[| | | | | | d |] |]; try discriminate.
        unfold getitem, dict_getitem. by rewrite Hv. }
    rewrite (output_format_structured _ _ E w w _ Hbody Hfmt), Hkey.
    reflexivity.
  - intros symbol rest entry v Hkey Hsym Hentry Hv.
    assert (Hbody :
      func.field (output_format None (func.endpoint name)) field E w
        = (Ok (VDict (map_imap (fun _ _ => Some v)
                               (Self.data_set (self w)))), w)).
    { unfold func.field, bind at 1, getattr at 1. unfold bind at 1.
      rewrite (dict_comprehension_ok _ E w (Self.data_set (self w))
                 (fun _ _ => v)); [reflexivity |].
      intros k entry' Hk. unfold bind at 1, getattr at 1.
      rewrite Hkey. simpl. unfold bind at 1.
      rewrite Hgetter, Hkey, Hsym. simpl.
      unfold getitem at 1, dict_getitem. rewrite lookup_omap, Hentry. simpl.
      unfold field_of in Hv.
      destruct (entry !! name) as [[| | | | | | d |] |]; try discriminate.
      unfold getitem, dict_getitem. by rewrite Hv. }
    rewrite (output_format_structured _ _ E w w _ Hbody Hfmt), Hkey, Hsym.
    simpl. unfold getitem, dict_getitem.
    by rewrite map_lookup_imap, Hentry.
Qed.

(** X19. In structured mode, on a single-symbol instance whose data set
    no longer holds its symbol (a later refresh failed), an endpoint
    accessor fails with a key error for the symbol, not with the symbol
    error. *)
Theorem endpoint_accessor_symbol_gone override symbol rest :
  Self.output_format (self w) <> "pandas" ->
  Self.key (self w) = "share" ->
  Self.symbols (self w) = symbol :: rest ->
  Self.data_set (self w) !! symbol = None ->
  (forall s entry, Self.data_set (self w) !! s = Some entry ->
                   is_Some (entry !! name)) ->
  output_format override (func.endpoint name) E w
    = (Raise (KeyError (VStr symbol)), w).
Proof.
  intros Hfmt Hkey Hsym Hgone Hall.
  rewrite (output_format_structured override _ E w w _
             (endpoint_body_ok E w name Hall) Hfmt), Hkey, Hsym.
  simpl. unfold getitem, dict_getitem. by rewrite lookup_omap, Hgone.
Qed.

End EndpointAccessors.

(** Closes a goal "every entry of this concrete map satisfies this
    decidable property" by evaluation. *)
Ltac every_entry :=
  match goal with
  | |- forall i x, ?m !! i = Some x -> @?P i x =>
      apply (proj1 (map_Forall_lookup P m));
      eapply (@bool_decide_unpack _ (map_Forall_dec _ _));
      vm_compute; exact I
  end.

Lemma endpoint_accessor_structured_witness :
  StockReader.get_price Sample.server Sample.batch_json
    = (Ok (VDict (omap (fun entry => entry !! "price")
                       (Self.data_set (self Sample.batch_json)))),
       Sample.batch_json) /\
  StockReader.get_quote Sample.aapl_server Sample.share_json
    = (Ok Sample.quote_aapl, Sample.share_json).
Proof.
  split.
  - apply (proj1 (endpoint_accessor_structured Sample.server
                    Sample.batch_json "price" (Some "json")
                    ltac:(discriminate) ltac:(every_entry)));
      discriminate.
  - apply (proj2 (endpoint_accessor_structured Sample.aapl_server
                    Sample.share_json "quote" None
                    ltac:(discriminate) ltac:(every_entry))
             "AAPL" [] Fixture.aapl Sample.quote_aapl);
      vm_compute; reflexivity.
Defined.

Lemma endpoint_accessor_missing_witness :
  StockReader.get_price Sample.server Fixture.overfull
    = (Raise (KeyError (VStr "price")), Fixture.overfull).
Proof.
  apply (endpoint_accessor_missing Sample.server Fixture.overfull "price"
           (Some "json")).
  exists "TSLA", Sample.tsla1. split; vm_compute; reflexivity.
Defined.

Lemma endpoint_accessor_tabular_witness :
  StockReader.get_quote Sample.server Fixture.batch_pandas
    = (Ok (VPandas (VDict (omap (fun entry => entry !! "quote")
                                (Self.data_set (self Fixture.batch_pandas))))),
       Fixture.batch_pandas).
Proof.
  apply (endpoint_accessor_tabular Sample.server Fixture.batch_pandas
           "quote"); [vm_compute; reflexivity | every_entry].
Defined.

Lemma field_accessor_structured_witness :
  StockReader.get_company_name Sample.server Sample.batch_json
    = (Ok (VDict (omap (field_of "quote" "companyName")
                       (Self.data_set (self Sample.batch_json)))),
       Sample.batch_json) /\
  StockReader.get_company_name Sample.aapl_server Sample.share_json
    = (Ok (VStr "Apple Inc."), Sample.share_json).
Proof.
  split.
  - apply (proj1 (field_accessor_structured Sample.server
                    Sample.batch_json "quote" "companyName"
                    ltac:(discriminate) ltac:(every_entry)));
      [vm_compute; reflexivity | every_entry].
  - apply (proj2 (field_accessor_structured Sample.aapl_server
                    Sample.share_json "quote" "companyName"
                    ltac:(discriminate) ltac:(every_entry))
             "AAPL" [] Fixture.aapl (VStr "Apple Inc."));
      vm_compute; reflexivity.
Defined.

Lemma endpoint_accessor_symbol_gone_witness :
  StockReader.get_quote Sample.aapl_server Fixture.delisted
    = (Raise (KeyError (VStr "AAPL")), Fixture.delisted).
Proof.
  apply (endpoint_accessor_symbol_gone Sample.aapl_server Fixture.delisted
           "quote" None "AAPL" []);
    [discriminate | vm_compute; reflexivity | vm_compute; reflexivity
    | vm_compute; reflexivity | every_entry].
Defined.

Lemma lookup_restrict {V} (keys : list string) (m : gmap string V) k :
  restrict keys m !! k = if decide (k ∈ keys) then m !! k else None.
Proof.
  unfold restrict. rewrite map_lookup_filter.
  destruct (m !! k) as [v |]; simpl; [| by case_decide].
  case_decide; [by rewrite option_guard_True | by rewrite option_guard_False].
Qed.

Section SelectEndpoints.
Import StockReader.

Variables (E : collaborators) (w : world).

Lemma endpoints_all_or_missing (entry : gmap string value)
    (endpoints : list string) :
  (forall e, e ∈ endpoints -> is_Some (entry !! e)) \/
  (exists e, e ∈ endpoints /\ entry !! e = None).
Proof.
  induction endpoints as [| e l IH].
  - left. intros e He. inversion He.
  - destruct (entry !! e) as [v |] eqn:He.
    + destruct IH as [Hall | (e' & He' & Hnone)].
      * left. intros e' [-> | He']%elem_of_cons; [by rewrite He | auto].
      * right. exists e'. split; [by right | done].
    + right. exists e. split; [by left | done].
Qed.

(** The inner loop on an entry that holds every requested endpoint. *)
Lemma select_endpoints_ok entry (endpoints : list string) :
  (forall e, e ∈ endpoints -> is_Some (entry !! e)) ->
  forall temp, exists t,
    for_in endpoints (func.select_endpoint (Some entry)) temp E w
      = (Ok t, w) /\
    forall e, t !! e = if decide (e ∈ endpoints) then entry !! e
                       else temp !! e.
Proof.
  induction endpoints as [| x l IH]; intros Hall temp.
  - exists temp. split; [reflexivity |]. intros e.
    by rewrite decide_False by apply not_elem_of_nil.
  - destruct (Hall x) as [v Hv]; [by left |].
    destruct (IH (fun e He => Hall e (list_elem_of_further _ _ _ He))
                (<[x := v]> temp)) as (t & Hrun & Ht).
    exists t. split.
    + simpl. unfold bind at 1.
      unfold func.select_endpoint at 1, bind, try_except_KeyError, lift,
        dict_getitem, ret.
      rewrite Hv. exact Hrun.
    + intros e. rewrite Ht, lookup_insert.
      destruct (decide (e ∈ l)) as [He | He].
      * by rewrite decide_True by (by right).
      * destruct (decide (x = e)) as [-> | Hne].
        -- by rewrite decide_True by left.
        -- rewrite decide_False; [done |].
           intros [-> | ?]%elem_of_cons; done.
Qed.

(** The inner loop on an entry that lacks a requested endpoint. *)
Lemma select_endpoints_missing entry (endpoints : list string) :
  (exists e, e ∈ endpoints /\ entry !! e = None) ->
  forall temp, exists e,
    for_in endpoints (func.select_endpoint (Some entry)) temp E w
      = (Raise (IEXEndpointError e), w) /\
    e ∈ endpoints /\ entry !! e = None.
Proof.
  induction endpoints as [| x l IH]; intros (e & He & Hnone) temp.
  - inversion He.
  - simpl. unfold bind at 1.
    unfold func.select_endpoint at 1, bind, try_except_KeyError, lift,
      dict_getitem, ret, raise.
    destruct (entry !! x) as [v |] eqn:Hx.
    + destruct (IH) with (temp := <[x := v]> temp) as (e' & Hrun & He' & Hn').
      * apply elem_of_cons in He as [-> | He]; [congruence | eauto].
      * exists e'. split; [exact Hrun |]. split; [by right | done].
    + exists x. split; [reflexivity |]. split; [by left | done].
Qed.

(** One round of the outer loop on a symbol the data set holds. *)
Lemma select_symbol_run endpoints result old symbol entry :
  Self.data_set (self w) !! symbol = Some entry ->
  func.select_symbol endpoints (result, old) symbol E w
    = match for_in endpoints (func.select_endpoint (Some entry)) ∅ E w with
      | (Ok temp, w') => (Ok (<[symbol := VDict temp]> result, Some entry), w')
      | (Raise e, w') => (Raise e, w')
      end.
Proof.
  intros Hentry. unfold func.select_symbol, bind at 1.
  cbv [try_except_KeyError bind getattr lift dict_getitem ret].
  rewrite Hentry.
  by destruct (for_in endpoints _ _ E w) as [[temp | e] w'].
Qed.

Lemma restrict_lookups entry (endpoints : list string) t :
  (forall e, t !! e = if decide (e ∈ endpoints) then entry !! e
                      else (∅ : gmap string value) !! e) ->
  t = restrict endpoints entry.
Proof.
  intros Ht. apply map_eq. intros e. rewrite Ht, lookup_restrict.
  by case_decide.
Qed.

(** The outer loop on an instance all of whose symbols hold all of the
    requested endpoints. *)
Lemma select_symbols_ok endpoints (l : list string) :
  (forall s, s ∈ l -> exists entry,
     Self.data_set (self w) !! s = Some entry /\
     forall e, e ∈ endpoints -> is_Some (entry !! e)) ->
  forall result old, exists r ds,
    for_in l (func.select_symbol endpoints) (result, old) E w
      = (Ok (r, ds), w) /\
    forall s, r !! s
      = if decide (s ∈ l)
        then (fun entry => VDict (restrict endpoints entry))
               <$> Self.data_set (self w) !! s
        else result !! s.
Proof.
  induction l as [| x l IH]; intros Hall result old.
  - exists result, old. split; [reflexivity |]. intros s.
    by rewrite decide_False by apply not_elem_of_nil.
  - destruct (Hall x) as (entry & Hentry & Heps); [by left |].
    destruct (select_endpoints_ok entry endpoints Heps ∅) as (t & Hinner & Ht).
    apply restrict_lookups in Ht. subst t.
    destruct (IH (fun s Hs => Hall s (list_elem_of_further _ _ _ Hs))
                (<[x := VDict (restrict endpoints entry)]> result)
                (Some entry)) as (r & ds & Hrun & Hr).
    exists r, ds. split.
    + cbn [for_in]. unfold bind at 1.
      rewrite (select_symbol_run _ _ _ _ _ Hentry), Hinner. exact Hrun.
    + intros s. rewrite Hr, lookup_insert.
      destruct (decide (s ∈ l)) as [Hs | Hs].
      * by rewrite decide_True by (by right).
      * destruct (decide (x = s)) as [-> | Hne].
        -- rewrite decide_True by left. by rewrite Hentry.
        -- rewrite decide_False; [done |].
           intros [-> | ?]%elem_of_cons; done.
Qed.

(** The outer loop on an instance all of whose symbols are in the data
    set, one of them without one of the requested endpoints. *)
Lemma select_symbols_missing endpoints (l : list string) :
  (forall s, s ∈ l -> is_Some (Self.data_set (self w) !! s)) ->
  (exists s entry e,
     s ∈ l /\ Self.data_set (self w) !! s = Some entry /\
     e ∈ endpoints /\ entry !! e = None) ->
  forall result old, exists e s entry,
    for_in l (func.select_symbol endpoints) (result, old) E w
      = (Raise (IEXEndpointError e), w) /\
    e ∈ endpoints /\ s ∈ l /\
    Self.data_set (self w) !! s = Some entry /\ entry !! e = None.
Proof.
  induction l as [| x l IH];
    intros Hall (s & entry & e & Hs & Hentry & He & Hnone) result old.
  - inversion Hs.
  - destruct (Hall x) as [entry' Hentry']; [by left |].
    cbn [for_in]. unfold bind at 1.
    rewrite (select_symbol_run _ _ _ _ _ Hentry').
    destruct (endpoints_all_or_missing entry' endpoints) as [Hok | Hbad].
    + destruct (select_endpoints_ok entry' endpoints Hok ∅)
        as (t & -> & _).
      destruct (IH (fun s Hs => Hall s (list_elem_of_further _ _ _ Hs)))
        with (result := <[x := VDict t]> result) (old := Some entry')
        as (e1 & s1 & entry1 & Hrun & He1 & Hs1 & Hentry1 & Hnone1).
      * apply elem_of_cons in Hs as [-> | Hs].
        -- assert (entry' = entry) as -> by congruence.
           destruct (Hok e He) as [? ?]. congruence.
        -- by exists s, entry, e.
      * exists e1, s1, entry1. split; [exact Hrun |].
        split; [done |]. split; [by right | done].
    + destruct (select_endpoints_missing entry' endpoints Hbad ∅)
        as (e1 & -> & He1 & Hnone1).
      exists e1, x, entry'. split; [reflexivity |].
      split; [done |]. split; [by left | done].
Qed.

Lemma get_select_endpoints_unfold endpoints :
  endpoint_list endpoints <> [] ->
  func.get_select_endpoints endpoints E w
    = match for_in (Self.symbols (self w))
                   (func.select_symbol (endpoint_list endpoints))
                   (∅, None) E w with
      | (Ok locals, w') => (Ok (VDict locals.1), w')
      | (Raise e, w') => (Raise e, w')
      end.
Proof.
  intros Hne. unfold func.get_select_endpoints.
  destruct endpoints as [e | [| e l]]; [| done |];
    unfold bind at 1; cbv [ret]; unfold bind at 1, getattr at 1;
    unfold bind; simpl;
    by destruct (for_in _ _ _ E w) as [[locals | err] w'].
Qed.

(** X12. On an instance, in structured mode, all of whose symbols are in
    the data set with every requested endpoint, [get_select_endpoints]
    returns for each symbol of the instance exactly the requested endpoints
    of its entry; a single-symbol instance gets the mapping of its symbol
    alone. *)
Theorem get_select_endpoints_projects endpoints :
  endpoint_list endpoints <> [] ->
  Self.output_format (self w) <> "pandas" ->
  (forall s, s ∈ Self.symbols (self w) -> exists entry,
     Self.data_set (self w) !! s = Some entry /\
     forall e, e ∈ endpoint_list endpoints -> is_Some (entry !! e)) ->
  (Self.key (self w) <> "share" ->
   get_select_endpoints endpoints E w
     = (Ok (VDict ((fun entry =>
                      VDict (restrict (endpoint_list endpoints) entry))
                   <$> restrict (Self.symbols (self w))
                                (Self.data_set (self w)))), w)) /\
  (forall symbol rest entry,
     Self.key (self w) = "share" ->
     Self.symbols (self w) = symbol :: rest ->
     Self.data_set (self w) !! symbol = Some entry ->
     get_select_endpoints endpoints E w
       = (Ok (VDict (restrict (endpoint_list endpoints) entry)), w)).
Proof.
  intros Hne Hfmt Hall.
  assert (Hbody :
    func.get_select_endpoints endpoints E w
      = (Ok (VDict ((fun entry =>
                       VDict (restrict (endpoint_list endpoints) entry))
                    <$> restrict (Self.symbols (self w))
                                 (Self.data_set (self w)))), w)).
  { rewrite (get_select_endpoints_unfold endpoints Hne).
    destruct (select_symbols_ok (endpoint_list endpoints)
                (Self.symbols (self w)) Hall ∅ None) as (r & ds & -> & Hr).
    simpl. f_equal. f_equal. f_equal. apply map_eq. intros s.
    rewrite Hr, lookup_fmap, lookup_restrict. by case_decide. }
  unfold get_select_endpoints.
  rewrite (output_format_structured _ _ E w w _ Hbody Hfmt).
  split.
  - intros Hkey.
    by destruct (String.eqb_spec (Self.key (self w)) "share").
  - intros symbol rest entry Hkey Hsym Hentry. rewrite Hkey, Hsym. simpl.
    unfold getitem, dict_getitem.
    rewrite lookup_fmap, lookup_restrict, decide_True by left.
    by rewrite Hentry.
Qed.

(** X13. An empty endpoint list is refused with a value error on every
    instance and in every mode.  On an instance all of whose symbols are in
    the data set, a requested endpoint that the entry of some symbol lacks
    makes the call fail with the endpoint error, naming such an
    endpoint. *)
Theorem get_select_endpoints_rejects :
  get_select_endpoints (List []) E w
    = (Raise (ValueError "Please provide a valid list of endpoints"), w) /\
  (forall endpoints,
     endpoint_list endpoints <> [] ->
     (forall s, s ∈ Self.symbols (self w) ->
                is_Some (Self.data_set (self w) !! s)) ->
     (exists s entry e,
        s ∈ Self.symbols (self w) /\
        Self.data_set (self w) !! s = Some entry /\
        e ∈ endpoint_list endpoints /\ entry !! e = None) ->
     exists e s entry,
       get_select_endpoints endpoints E w = (Raise (IEXEndpointError e), w) /\
       e ∈ endpoint_list endpoints /\ s ∈ Self.symbols (self w) /\
       Self.data_set (self w) !! s = Some entry /\ entry !! e = None).
Proof.
  split; [reflexivity |].
  intros endpoints Hne Hall Hmissing.
  destruct (select_symbols_missing (endpoint_list endpoints)
              (Self.symbols (self w)) Hall Hmissing ∅ None)
    as (e & s & entry & Hrun & He & Hs & Hentry & Hnone).
  exists e, s, entry. split; [| done].
  unfold get_select_endpoints. apply output_format_raise.
  by rewrite (get_select_endpoints_unfold endpoints Hne), Hrun.
Qed.

End SelectEndpoints.

Lemma get_select_endpoints_projects_witness :
  StockReader.get_select_endpoints (Str "quote") Sample.server
                                   Sample.batch_json
    = (Ok (VDict ((fun entry => VDict (restrict ["quote"] entry))
                  <$> restrict (Self.symbols (self Sample.batch_json))
                               (Self.data_set (self Sample.batch_json)))),
       Sample.batch_json).
Proof.
  apply (proj1 (get_select_endpoints_projects Sample.server
                  Sample.batch_json (Str "quote")
                  ltac:(discriminate) ltac:(discriminate)
                  ltac:(intros s Hs;
                        replace (Self.symbols (self Sample.batch_json))
                          with ["AAPL"; "TSLA"] in Hs
                          by (vm_compute; reflexivity);
                        apply elem_of_cons in Hs as [-> | Hs];
                          [exists Fixture.aapl
                          | apply list_elem_of_singleton in Hs as ->;
                            exists Fixture.tsla];
                        (split; [vm_compute; reflexivity |]);
                        intros e ->%list_elem_of_singleton;
                        eexists; vm_compute; reflexivity))).
  discriminate.
Defined.

Lemma get_select_endpoints_rejects_witness :
  exists e s entry,
    StockReader.get_select_endpoints (List ["quote"; "BADENDPOINT"])
                                     Sample.server Sample.batch_json
      = (Raise (IEXEndpointError e), Sample.batch_json) /\
    e ∈ ["quote"; "BADENDPOINT"] /\
    s ∈ Self.symbols (self Sample.batch_json) /\
    Self.data_set (self Sample.batch_json) !! s = Some entry /\
    entry !! e = None.
Proof.
  apply (proj2 (get_select_endpoints_rejects Sample.server
                  Sample.batch_json) (List ["quote"; "BADENDPOINT"])).
  - discriminate.
  - intros s Hs.
    replace (Self.symbols (self Sample.batch_json)) with ["AAPL"; "TSLA"]
      in Hs by (vm_compute; reflexivity).
    apply elem_of_cons in Hs as [-> | Hs];
      [| apply list_elem_of_singleton in Hs as ->];
      eexists; vm_compute; reflexivity.
  - exists "AAPL", Fixture.aapl, "BADENDPOINT".
    split; [| split; [vm_compute; reflexivity | split]].
    + replace (Self.symbols (self Sample.batch_json)) with ["AAPL"; "TSLA"]
        by (vm_compute; reflexivity).
      left.
    + right; left.
    + vm_compute. reflexivity.
Defined.

(** ** The historical reader: request, validation, shaping *)

Lemma map_result_strings (names : list string) :
  map_result (fun item => match item with
                          | VStr s => Ok s
                          | _ => Raise (TypeError "expected str instance")
                          end) (VStr <$> names) = Ok names.
Proof.
  induction names as [| n l IH]; [done |].
  rewrite fmap_cons. cbn [map_result]. by rewrite IH.
Qed.

Lemma map_result_not_string (l : list value) :
  (exists x, x ∈ l /\ forall s, x <> VStr s) ->
  map_result (fun item => match item with
                          | VStr s => Ok s
                          | _ => Raise (TypeError "expected str instance")
                          end) l
    = Raise (TypeError "expected str instance").
Proof.
  induction l as [| y l IH]; intros (x & Hx & Hnot).
  - inversion Hx.
  - simpl. destruct y; try reflexivity.
    rewrite IH; [reflexivity |].
    apply elem_of_cons in Hx as [-> | Hx]; [| eauto].
    exfalso. by eapply Hnot.
Qed.

Lemma keys_elem_of {V} (m : gmap string V) k :
  k ∈ (map_to_list m).*1 <-> is_Some (m !! k).
Proof.
  rewrite list_elem_of_fmap. split.
  - intros [[k' v] [-> Hkv]]. apply elem_of_map_to_list in Hkv. eauto.
  - intros [v Hv]. exists (k, v). split; [done |].
    by apply elem_of_map_to_list.
Qed.

Section HistoricalRequest.
Import HistoricalReader.

Variables (L : library) (now : datetime).

(** What the constructor stores, by mode. *)
Lemma init_stores symbols start end_ fmt self :
  __init__ symbols start end_ fmt = Ok self ->
  (type self = "Share" /\ symlist self = [symbols] /\
   exists s, symbols = VStr s) \/
  (type self = "Batch" /\ symbols = VList (symlist self)).
Proof.
  destruct symbols; simpl; try discriminate.
  - intros [= <-]. left. eauto.
  - destruct (1 <? length l)%nat; [| discriminate].
    intros [= <-]. by right.
Qed.

Lemma init_symbols symbols start end_ fmt self :
  __init__ symbols start end_ fmt = Ok self ->
  HistoricalReader.symbols self = symbols.
Proof.
  destruct symbols; simpl; try discriminate.
  - by intros [= <-].
  - destruct (1 <? length l)%nat; [| discriminate]. by intros [= <-].
Qed.

(** X14. For a constructed reader whose symbols are all strings, the
    request carries the symbols joined by commas (a single symbol as it
    was given, not uppercased), the type "chart" and the bucket of
    [chart_range]; a date outside the supported years fails the request
    with the error of [chart_range]; and a batch holding an element that is
    not a string fails it with a type error. *)
Theorem historical_params symbols start end_ fmt self :
  __init__ symbols start end_ fmt = Ok self ->
  (forall names, symlist self = VStr <$> names ->
     (forall range, chart_range now self = Ok range ->
        params L now self
          = Ok (<["range" := VStr range]>
                  (<["types" := VStr "chart"]>
                     (<["symbols" := VStr (String.concat "," names)]> ∅)))) /\
     (forall e, chart_range now self = Raise e ->
        params L now self = Raise e)) /\
  ((exists x, x ∈ symlist self /\ forall s, x <> VStr s) ->
   params L now self = Raise (TypeError "expected str instance")).
Proof.
  intros Hinit. pose proof (init_symbols _ _ _ _ _ Hinit) as Hsym.
  destruct (init_stores _ _ _ _ _ Hinit)
    as [(Htype & Hlist & s & ->) | (Htype & ->)].
  - split.
    + intros names Hnames. rewrite Hlist in Hnames.
      destruct names as [| n [| ? ?]]; try discriminate.
      injection Hnames as ->.
      unfold params. rewrite Htype, Hsym. simpl.
      split; [intros range -> | intros e ->]; reflexivity.
    + intros (x & Hx & Hnot). exfalso. rewrite Hlist in Hx.
      apply list_elem_of_singleton in Hx as ->. by eapply Hnot.
  - split.
    + intros names Hnames.
      unfold params, join. rewrite Htype, Hsym. simpl.
      rewrite Hnames, map_result_strings. simpl.
      split; [intros range -> | intros e ->]; reflexivity.
    + intros Hbad. unfold params, join. rewrite Htype, Hsym. simpl.
      by rewrite (map_result_not_string _ Hbad).
Qed.

(** X20. Whatever the dates, a bucket that [chart_range] returns is one of
    5y, 2y and 1y, each a range the stock reader itself accepts. *)
Theorem chart_range_supported self range :
  chart_range now self = Ok range ->
  range ∈ ["5y"; "2y"; "1y"] /\ range ∈ StockReader._RANGE_VALUES.
Proof.
  unfold chart_range.
  repeat match goal with
         | |- context [if ?b then _ else _] => destruct b
         end; intros [= <-]; split;
    repeat first [apply list_elem_of_here | apply list_elem_of_further].
Qed.

End HistoricalRequest.

Section HistoricalFetch.
Import HistoricalReader.

Variables (E : collaborators) (L : library) (now : datetime) (self : t).

Lemma contains_string (response : response) s :
  contains L (map_to_list response).*1 (VStr s)
    = Ok (bool_decide (is_Some (response !! s))).
Proof.
  unfold contains. f_equal. apply bool_decide_ext, keys_elem_of.
Qed.

Lemma validate_found (names : list string) (response : response) :
  (forall x, x ∈ names -> is_Some (response !! x)) ->
  validate L (VStr <$> names) response = Fetched tt.
Proof.
  induction names as [| n l IH]; intros Hall; [reflexivity |].
  cbn [fmap list_fmap validate]. rewrite contains_string.
  rewrite bool_decide_eq_true_2 by (apply Hall; left).
  apply IH. intros x Hx. apply Hall. by right.
Qed.

Lemma validate_not_found (pre post : list string) n (response : response) :
  (forall x, x ∈ pre -> is_Some (response !! x)) ->
  response !! n = None ->
  validate L (VStr <$> (pre ++ n :: post)%list) response = NotFound (VStr n).
Proof.
  induction pre as [| p l IH]; intros Hall Hnone.
  - cbn [app fmap list_fmap validate]. rewrite contains_string.
    rewrite bool_decide_eq_false_2; [reflexivity |].
    rewrite Hnone. by intros [? ?].
  - cbn [app fmap list_fmap validate]. rewrite contains_string.
    rewrite bool_decide_eq_true_2 by (apply Hall; left).
    apply IH; [| exact Hnone]. intros x Hx. apply Hall. by right.
Qed.

(** X15. [fetch] gives up before any request when the parameters cannot
    be built (a date outside the supported years), passes on a transport
    failure, and otherwise checks its symbols in order against the
    response: the first one absent raises the symbol error, before pandas
    sees anything; if none is absent the response goes to
    [_output_format]. *)
Theorem fetch_validates (names : list string) :
  symlist self = VStr <$> names ->
  (forall e, params L now self = Raise e -> fetch E L now self = Failed e) /\
  (forall request,
     params L now self = Ok request ->
     (forall e, GET E url request = Raise e ->
        fetch E L now self = Failed e) /\
     (forall response,
        GET E url request = Ok response ->
        (forall pre n post,
           names = (pre ++ n :: post)%list ->
           (forall x, x ∈ pre -> is_Some (response !! x)) ->
           response !! n = None ->
           fetch E L now self = NotFound (VStr n)) /\
        ((forall x, x ∈ names -> is_Some (response !! x)) ->
         fetch E L now self
           = match _output_format E L self response with
             | Ok v => Fetched v
             | Raise e => Failed e
             end))).
Proof.
  intros Hnames. unfold fetch, super_fetch. split.
  - by intros e ->.
  - intros request ->. cbn [result_bind]. split.
    + by intros e ->.
    + intros response ->. rewrite Hnames. split.
      * intros pre n post -> Hpre Hnone.
        by rewrite (validate_not_found pre post n response Hpre Hnone).
      * intros Hall. by rewrite (validate_found names response Hall).
Qed.

End HistoricalFetch.

Section HistoricalShape.
Import HistoricalReader.

Variables (E : collaborators) (L : library) (self : t).

Lemma fold_result_app {A S} (body : S -> A -> result S) (l1 l2 : list A) s :
  fold_result (l1 ++ l2) body s
    = letr s' := fold_result l1 body s in fold_result l2 body s'.
Proof.
  revert s. induction l1 as [| x l IH]; intros s; [reflexivity |].
  simpl. destruct (body s x); simpl; [apply IH | reflexivity].
Qed.

(** One round of the loop of [_output_format] on a symbol still in [out]. *)
Lemma output_symbol_run out frames s entry :
  out !! s = Some entry ->
  output_symbol E L self (out, frames) (VStr s)
    = letr df := entry_frame E L self entry in
      Ok (delete s out, <[s := df]> frames).
Proof.
  intros Hentry. unfold output_symbol, pop, entry_frame. simpl.
  rewrite Hentry. simpl. by destruct (dict_getitem entry "chart").
Qed.

(** One round on a symbol no longer, or never, in [out]. *)
Lemma output_symbol_gone out frames s :
  out !! s = None ->
  output_symbol E L self (out, frames) (VStr s) = Raise (KeyError (VStr s)).
Proof. intros Hnone. unfold output_symbol, pop. simpl. by rewrite Hnone. Qed.

(** The loop of [_output_format] over distinct symbols, each with a chart
    pandas accepts: every symbol leaves [out] and gets its frame. *)
Lemma output_loop_ok (names : list string) :
  NoDup names ->
  forall out frames,
    (forall n, n ∈ names -> exists entry f,
       out !! n = Some entry /\ entry_frame E L self entry = Ok f) ->
    exists out' r,
      fold_result (VStr <$> names) (output_symbol E L self) (out, frames)
        = Ok (out', r) /\
      (forall n, n ∈ names -> out' !! n = None /\ exists entry f,
         out !! n = Some entry /\ entry_frame E L self entry = Ok f /\
         r !! n = Some f) /\
      (forall n, n ∉ names -> out' !! n = out !! n /\ r !! n = frames !! n).
Proof.
  induction names as [| x l IH]; intros Hnd out frames Hall.
  - exists out, frames. split; [reflexivity |]. split; [| done].
    intros n Hn. inversion Hn.
  - apply NoDup_cons in Hnd as [Hx Hnd].
    destruct (Hall x) as (entry & f & Hentry & Hf); [by left |].
    destruct (IH Hnd (delete x out) (<[x := f]> frames))
      as (out' & r & Hrun & Hin & Hout).
    { intros n Hn. destruct (Hall n) as (en & fn & Hen & Hfn); [by right |].
      exists en, fn. split; [| done].
      rewrite lookup_delete_ne; [done |]. intros ->. done. }
    exists out', r. split; [| split].
    + rewrite fmap_cons. cbn [fold_result].
      rewrite (output_symbol_run _ _ _ _ Hentry), Hf. exact Hrun.
    + intros n [-> | Hn]%elem_of_cons.
      * destruct (Hout x Hx) as [Ho Hr]. split.
        -- by rewrite Ho, lookup_delete_eq.
        -- exists entry, f. by rewrite Hr, lookup_insert_eq.
      * destruct (Hin n Hn) as (Ho & en & fn & Hen & Hfn & Hr).
        split; [done |]. exists en, fn. split; [| done].
        rewrite lookup_delete_ne in Hen; [done |]. intros ->. done.
    + intros n Hn. rewrite not_elem_of_cons in Hn. destruct Hn as [Hne Hn].
      destruct (Hout n Hn) as [Ho Hr].
      by rewrite Ho, Hr, lookup_delete_ne, lookup_insert_ne.
Qed.

(** The loop that converts the frames, over distinct keys. *)
Lemma convert_loop (keys : list string) :
  NoDup keys ->
  forall frames,
    (forall k, k ∈ keys -> exists f j,
       frames !! k = Some f /\ to_dict L f "index" = Ok j) ->
    exists r,
      fold_result keys (convert_symbol L) frames = Ok r /\
      (forall k, k ∈ keys -> exists f j,
         frames !! k = Some f /\ to_dict L f "index" = Ok j /\
         r !! k = Some j) /\
      (forall k, k ∉ keys -> r !! k = frames !! k).
Proof.
  induction keys as [| x l IH]; intros Hnd frames Hall.
  - exists frames. split; [reflexivity |]. split; [| done].
    intros k Hk. inversion Hk.
  - apply NoDup_cons in Hnd as [Hx Hnd].
    destruct (Hall x) as (f & j & Hf & Hj); [by left |].
    destruct (IH Hnd (<[x := j]> frames)) as (r & Hrun & Hin & Hout).
    { intros k Hk. destruct (Hall k) as (fk & jk & Hfk & Hjk); [by right |].
      exists fk, jk. split; [| done].
      rewrite lookup_insert_ne; [done |]. intros ->. done. }
    exists r. split; [| split].
    + cbn [fold_result]. unfold convert_symbol at 1, dict_getitem.
      rewrite Hf. simpl. rewrite Hj. exact Hrun.
    + intros k [-> | Hk]%elem_of_cons.
      * exists f, j. by rewrite (Hout x Hx), lookup_insert_eq.
      * destruct (Hin k Hk) as (fk & jk & Hfk & Hjk & Hr).
        exists fk, jk. split; [| done].
        rewrite lookup_insert_ne in Hfk; [done |]. intros ->. done.
    + intros k Hk. rewrite not_elem_of_cons in Hk. destruct Hk as [Hne Hk].
      by rewrite (Hout k Hk), lookup_insert_ne.
Qed.

(** X16. In structured mode, for distinct symbols each with a chart that
    pandas accepts and converts, [_output_format] returns a dictionary
    holding exactly those symbols, each with its frame converted by
    [to_dict]. *)
Theorem output_format_structured_series (names : list string) out :
  symlist self = VStr <$> names ->
  NoDup names ->
  output_format self <> "pandas" ->
  (forall n, n ∈ names -> exists entry f j,
     out !! n = Some entry /\ entry_frame E L self entry = Ok f /\
     to_dict L f "index" = Ok j) ->
  exists r,
    _output_format E L self out = Ok (VDict r) /\
    (forall n, n ∈ names -> exists entry f j,
       out !! n = Some entry /\ entry_frame E L self entry = Ok f /\
       to_dict L f "index" = Ok j /\ r !! n = Some j) /\
    (forall n, n ∉ names -> r !! n = None).
Proof.
  intros Hsym Hnd Hfmt Hall.
  destruct (output_loop_ok names Hnd out ∅) as (out' & frames & Hrun & Hin & Hout).
  { intros n Hn. destruct (Hall n Hn) as (entry & f & j & ? & ? & ?). eauto. }
  assert (Hkeys : forall k, k ∈ (map_to_list frames).*1 <-> k ∈ names).
  { intros k. rewrite keys_elem_of. split.
    - intros Hsome. destruct (decide (k ∈ names)) as [| Hk]; [done |].
      destruct (Hout k Hk) as [_ Hr]. rewrite Hr, lookup_empty in Hsome.
      by destruct Hsome.
    - intros Hk. destruct (Hin k Hk) as (_ & ? & f & _ & _ & ->). eauto. }
  destruct (convert_loop (map_to_list frames).*1
              (NoDup_fst_map_to_list frames) frames) as (r & Hconv & Hcin & Hcout).
  { intros k Hk%Hkeys. destruct (Hin k Hk) as (_ & entry & f & He & Hf & Hr).
    destruct (Hall k Hk) as (entry' & f' & j & He' & Hf' & Hj).
    assert (f' = f) as -> by congruence. eauto. }
  exists r. split; [| split].
  - unfold _output_format. rewrite Hsym, Hrun. simpl.
    destruct (String.eqb_spec (output_format self) "pandas"); [done |].
    by rewrite Hconv.
  - intros n Hn. destruct (Hin n Hn) as (_ & entry & f & He & Hf & Hr).
    destruct (Hcin n) as (f' & j & Hf' & Hj & Hrn); [by apply Hkeys |].
    exists entry, f, j. assert (f' = f) as -> by congruence. done.
  - intros n Hn. rewrite Hcout by (by rewrite Hkeys).
    destruct (Hout n Hn) as [_ ->]. apply lookup_empty.
Qed.

(** X17. A symbol listed a second time makes [_output_format] fail with a
    key error, in either output mode: its entry left the response at its
    first occurrence. *)
Theorem output_format_repeated_symbol (pre post : list string) n out :
  symlist self = VStr <$> (pre ++ n :: post)%list ->
  NoDup pre -> n ∈ pre ->
  (forall x, x ∈ pre -> exists entry f,
     out !! x = Some entry /\ entry_frame E L self entry = Ok f) ->
  _output_format E L self out = Raise (KeyError (VStr n)).
Proof.
  intros Hsym Hnd Hn Hall.
  destruct (output_loop_ok pre Hnd out ∅ Hall) as (out' & frames & Hrun & Hin & _).
  destruct (Hin n Hn) as [Hgone _].
  unfold _output_format.
  rewrite Hsym, fmap_app, fold_result_app, Hrun, fmap_cons.
  cbn [result_bind fold_result].
  by rewrite (output_symbol_gone _ _ _ Hgone).
Qed.

(** X18. In tabular mode [_output_format] returns the frame itself for a
    single symbol, and for two or more distinct symbols a dictionary
    holding exactly those symbols, each with its frame. *)
Theorem output_format_tabular_frames (names : list string) out :
  symlist self = VStr <$> names ->
  NoDup names ->
  output_format self = "pandas" ->
  (forall n, n ∈ names -> exists entry f,
     out !! n = Some entry /\ entry_frame E L self entry = Ok f) ->
  (forall n entry f,
     names = [n] -> symbols self = VStr n ->
     out !! n = Some entry -> entry_frame E L self entry = Ok f ->
     _output_format E L self out = Ok f) /\
  ((1 < length names)%nat ->
   exists r,
     _output_format E L self out = Ok (VDict r) /\
     (forall n, n ∈ names -> exists entry f,
        out !! n = Some entry /\ entry_frame E L self entry = Ok f /\
        r !! n = Some f) /\
     (forall n, n ∉ names -> r !! n = None)).
Proof.
  intros Hsym Hnd Hfmt Hall.
  destruct (output_loop_ok names Hnd out ∅ Hall)
    as (out' & frames & Hrun & Hin & Hout).
  assert (Hsize : size frames = length names).
  { rewrite <- size_dom, <- (size_list_to_set (C := gset string) names Hnd).
    f_equal. apply set_eq. intros k.
    rewrite elem_of_dom, elem_of_list_to_set. split.
    - intros Hsome. destruct (decide (k ∈ names)) as [| Hk]; [done |].
      destruct (Hout k Hk) as [_ Hr]. rewrite Hr, lookup_empty in Hsome.
      by destruct Hsome.
    - intros Hk. destruct (Hin k Hk) as (_ & ? & f & _ & _ & ->). eauto. }
  unfold _output_format. rewrite Hsym, Hrun, Hfmt. simpl. rewrite Hsize.
  split.
  - intros n entry f -> Hsymbols Hentry Hf. simpl.
    rewrite Hsymbols. unfold dict_getitem_value. simpl.
    destruct (Hin n) as (_ & entry' & f' & He & Hf' & ->); [by left |].
    simpl. congruence.
  - intros Hlen. apply Nat.ltb_lt in Hlen. rewrite Hlen.
    exists frames. split; [reflexivity |]. split.
    + intros n Hn. destruct (Hin n Hn) as (_ & entry & f & ? & ? & ?). eauto.
    + intros n Hn. destruct (Hout n Hn) as [_ ->]. apply lookup_empty.
Qed.

End HistoricalShape.

Lemma historical_params_witness :
  HistoricalReader.params Fixture.plain Sample.d2018
                          (Fixture.share_reader "json")
    = Ok (<["range" := VStr "2y"]>
            (<["types" := VStr "chart"]>
               (<["symbols" := VStr "AAPL"]> ∅))) /\
  HistoricalReader.params Fixture.plain Sample.d2018 Fixture.old_reader
    = Raise (ValueError
               "Invalid date specified. Must be within past 5 years.") /\
  HistoricalReader.params Fixture.plain Sample.d2018
      (HistoricalReader.mk "Batch" [VStr "AAPL"; VInt 3]
         (VList [VStr "AAPL"; VInt 3]) Sample.d2017 Sample.d2018 "json")
    = Raise (TypeError "expected str instance").
Proof.
  split; [| split].
  - apply (proj1 (proj1 (historical_params Fixture.plain Sample.d2018
                           (VStr "AAPL") Sample.d2017 Sample.d2018 "json"
                           (Fixture.share_reader "json") eq_refl)
                        ["AAPL"] eq_refl)).
    reflexivity.
  - apply (proj2 (proj1 (historical_params Fixture.plain Sample.d2018
                           (VStr "AAPL") Sample.d2010 Sample.d2018 "json"
                           Fixture.old_reader eq_refl)
                        ["AAPL"] eq_refl)).
    reflexivity.
  - apply (proj2 (historical_params Fixture.plain Sample.d2018
                    (VList [VStr "AAPL"; VInt 3]) Sample.d2017 Sample.d2018
                    "json" _ eq_refl)).
    exists (VInt 3). split; [right; left | discriminate].
Defined.

Lemma fetch_validates_witness :
  HistoricalReader.fetch Fixture.chart_server Fixture.plain Sample.d2018
                         Fixture.old_reader
    = HistoricalReader.Failed
        (ValueError "Invalid date specified. Must be within past 5 years.") /\
  HistoricalReader.fetch Fixture.chart_server Fixture.plain Sample.d2018
                         (Fixture.batch_reader ["AAPL"; "ZZZZ"] "json")
    = HistoricalReader.NotFound (VStr "ZZZZ") /\
  HistoricalReader.fetch Fixture.chart_server Fixture.plain Sample.d2018
                         (Fixture.share_reader "json")
    = match HistoricalReader._output_format Fixture.chart_server
              Fixture.plain (Fixture.share_reader "json") Fixture.charts with
      | Ok v => HistoricalReader.Fetched v
      | Raise e => HistoricalReader.Failed e
      end.
Proof.
  split; [| split].
  - apply (proj1 (fetch_validates Fixture.chart_server Fixture.plain
                    Sample.d2018 Fixture.old_reader ["AAPL"] eq_refl)).
    reflexivity.
  - refine (proj1 (proj2 (proj2 (fetch_validates Fixture.chart_server
              Fixture.plain Sample.d2018
              (Fixture.batch_reader ["AAPL"; "ZZZZ"] "json")
              ["AAPL"; "ZZZZ"] eq_refl) _ eq_refl) Fixture.charts eq_refl)
            ["AAPL"] "ZZZZ" [] eq_refl _ eq_refl).
    intros x ->%list_elem_of_singleton. eexists. vm_compute. reflexivity.
  - refine (proj2 (proj2 (proj2 (fetch_validates Fixture.chart_server
              Fixture.plain Sample.d2018 (Fixture.share_reader "json")
              ["AAPL"] eq_refl) _ eq_refl) Fixture.charts eq_refl) _).
    intros x ->%list_elem_of_singleton. eexists. vm_compute. reflexivity.
Defined.

Lemma output_format_structured_series_witness :
  exists r,
    HistoricalReader._output_format Fixture.chart_server Fixture.plain
        (Fixture.batch_reader ["AAPL"; "TSLA"] "json") Fixture.charts
      = Ok (VDict r) /\
    (forall n, n ∈ ["AAPL"; "TSLA"] -> exists entry f j,
       Fixture.charts !! n = Some entry /\
       HistoricalReader.entry_frame Fixture.chart_server Fixture.plain
         (Fixture.batch_reader ["AAPL"; "TSLA"] "json") entry = Ok f /\
       HistoricalReader.to_dict Fixture.plain f "index" = Ok j /\
       r !! n = Some j) /\
    (forall n, n ∉ ["AAPL"; "TSLA"] -> r !! n = None).
Proof.
  apply (output_format_structured_series Fixture.chart_server Fixture.plain
           (Fixture.batch_reader ["AAPL"; "TSLA"] "json")
           ["AAPL"; "TSLA"] Fixture.charts eq_refl).
  - apply NoDup_cons. split; [| apply NoDup_singleton].
    intros ?%list_elem_of_singleton. discriminate.
  - discriminate.
  - intros n [-> | ->%list_elem_of_singleton]%elem_of_cons.
    + exists Fixture.chart_aapl, (VPandas (VList [Fixture.bar])),
        (VList [Fixture.bar]).
      repeat split; vm_compute; reflexivity.
    + exists Fixture.chart_tsla, (VPandas (VList [])), (VList []).
      repeat split; vm_compute; reflexivity.
Defined.

Lemma output_format_repeated_symbol_witness :
  HistoricalReader._output_format Fixture.chart_server Fixture.plain
      (Fixture.batch_reader ["AAPL"; "AAPL"] "json") Fixture.charts
    = Raise (KeyError (VStr "AAPL")).
Proof.
  apply (output_format_repeated_symbol Fixture.chart_server Fixture.plain
           (Fixture.batch_reader ["AAPL"; "AAPL"] "json")
           ["AAPL"] [] "AAPL" Fixture.charts eq_refl).
  - apply NoDup_singleton.
  - left.
  - intros x ->%list_elem_of_singleton.
    exists Fixture.chart_aapl, (VPandas (VList [Fixture.bar])).
    split; vm_compute; reflexivity.
Defined.

Lemma output_format_tabular_frames_witness :
  HistoricalReader._output_format Fixture.chart_server Fixture.plain
      (Fixture.share_reader "pandas") Fixture.charts
    = Ok (VPandas (VList [Fixture.bar])).
Proof.
  refine (proj1 (output_format_tabular_frames Fixture.chart_server
            Fixture.plain (Fixture.share_reader "pandas") ["AAPL"]
            Fixture.charts eq_refl (NoDup_singleton _) eq_refl _)
          "AAPL" Fixture.chart_aapl _ eq_refl eq_refl eq_refl eq_refl).
  intros x ->%list_elem_of_singleton.
  exists Fixture.chart_aapl, (VPandas (VList [Fixture.bar])).
  split; vm_compute; reflexivity.
Defined.

Lemma chart_range_supported_witness :
  "2y" ∈ ["5y"; "2y"; "1y"] /\ "2y" ∈ StockReader._RANGE_VALUES.
Proof.
  apply (chart_range_supported Sample.d2018 (Fixture.share_reader "json")).
  reflexivity.
Defined.
